(** * logme-cli: the migration runner and its command glue

    A shallow embedding of [logme.go] (the revision with the [migrate],
    [migrate-test], [up], [down], [list] and [test] subcommands).

    The program talks to four outside parties: the process environment, the
    file system, a ClickHouse connection ([driver.Conn]) and the shell.  The
    environment is a finite map owned by the process; everything else is an
    interface ([External]) whose answers the program cannot predict.  Every
    call that leaves the process is logged in a trace, so that statements
    such as "the insert is issued after the execution" or "no connection is
    attempted" become statements about lists of events. *)

From Stdlib Require Import ZArith Lia Ascii DecimalString.
From stdpp Require Import base numbers option list strings gmap sorting.

Local Open Scope Z_scope.
Local Open Scope list_scope.

(** ** Go values *)

(** [error] values.  [sql.ErrNoRows] is the sentinel the program tests for;
    an error may wrap another one, and [errors.Is] walks the chain. *)
Inductive error : Type :=
| ErrNoRows
| ErrMsg (msg : string)
| ErrWrap (msg : string) (inner : error).

Fixpoint is_ErrNoRows (err : error) : bool :=
  match err with
  | ErrNoRows => true
  | ErrMsg _ => false
  | ErrWrap _ inner => is_ErrNoRows inner
  end.

(** [errors.Is(err, sql.ErrNoRows)] *)
Definition errors_Is_ErrNoRows (err : error) : bool := is_ErrNoRows err.

(** [err.Error()] *)
Definition Error (err : error) : string :=
  match err with
  | ErrNoRows => "sql: no rows in result set"
  | ErrMsg msg => msg
  | ErrWrap msg _ => msg
  end.

(** A Go pair [(value, err)] in which exactly one side is meaningful. *)
Inductive res (A : Type) : Type :=
| Ok (a : A)
| Err (e : error).
Arguments Ok {A} a.
Arguments Err {A} e.

(** [fs.FileInfo], as far as the program looks at it. *)
Record FileInfo : Type := mkFileInfo {
  Name : string;
  IsDir : bool
}.

(** [clickhouse.Auth] and [clickhouse.Options] *)
Record Auth : Type := mkAuth {
  Database : string;
  Username : string;
  Password : string
}.

Inductive CompressionMethod : Type := CompressionNone | CompressionLZ4.

Record Options : Type := mkOptions {
  Addr : list string;
  OptAuth : Auth;
  Compression : CompressionMethod;
  Settings : list (string * Z)
}.

(** [driver.Conn]: the handle remembers how it was opened. *)
Record Conn : Type := mkConn { conn_options : Options }.

Global Instance error_eq_dec : EqDecision error.
Proof. solve_decision. Defined.
Global Instance FileInfo_eq_dec : EqDecision FileInfo.
Proof. solve_decision. Defined.
Global Instance Auth_eq_dec : EqDecision Auth.
Proof. solve_decision. Defined.
Global Instance CompressionMethod_eq_dec : EqDecision CompressionMethod.
Proof. solve_decision. Defined.
Global Instance Options_eq_dec : EqDecision Options.
Proof. solve_decision. Defined.

(** ** Library functions the program calls *)

(** [strings.HasSuffix]:
    [len(s) >= len(suffix) && s[len(s)-len(suffix):] == suffix] *)
Definition HasSuffix (s suffix : string) : bool :=
  (String.length suffix <=? String.length s)%nat &&
  String.eqb
    (String.substring (String.length s - String.length suffix)
                      (String.length suffix) s)
    suffix.

Definition nl : string := String "010"%char "".
Definition tab : string := String "009"%char "".
Definition dq : string := String "034"%char "".

(** The [%d] verb of [fmt.Sprintf] on an [int64]. *)
Definition fmt_d (n : Z) : string := NilZero.string_of_int (Z.to_int n).

(** [os.Getenv]: the value, or the empty string when the variable is not
    present. *)
Definition Getenv (env : gmap string string) (key : string) : string :=
  default "" (env !! key).

(** The order of two entries by their names, byte by byte. *)
Definition name_le (a b : FileInfo) : Prop := String.le (Name a) (Name b).

Global Instance name_le_dec : RelDecision name_le.
Proof. intros a b. unfold name_le. apply _. Defined.

(** Modelled from the spec: [ioutil.ReadDir] belongs to Go's library and is
    not in the source, which relies on the order it returns.  The
    specification has the entries "lexicographic by filename" (the library
    documents its result as "sorted by filename"); this is that sort. *)
Definition sort_by_name (l : list FileInfo) : list FileInfo :=
  merge_sort name_le l.

(** ** The outside world *)

(** What can be observed of a run from outside the process. *)
Inductive event : Type :=
| EvReadFile (path : string)
| EvReadDir (dir : string)
| EvOpen (o : Options)
| EvQueryRow (query : string)
| EvExec (query : string)
| EvAsyncInsert (query : string) (wait : bool)
| EvCommand (name : string) (args : list string)
| EvStdout (text : string)
| EvStderr (text : string)
| EvUsage.

Global Instance event_eq_dec : EqDecision event.
Proof. solve_decision. Defined.

(** The answers of the outside world.  Each call may change it. *)
Class External (E : Type) : Type := {
  (** [os.ReadFile] / [os.Open] followed by reading everything *)
  ext_ReadFile : string -> E -> E * res string;
  (** the directory entries in the order the operating system yields them *)
  ext_readdir : string -> E -> E * res (list FileInfo);
  (** the parser of [godotenv] *)
  ext_ParseDotenv : string -> res (gmap string string);
  (** [clickhouse.Open] *)
  ext_Open : Options -> E -> E * option error;
  (** [conn.QueryRow(ctx, q).Scan(&dst)] for a [string] destination *)
  ext_QueryRowString : Conn -> string -> E -> E * res string;
  (** [conn.QueryRow(ctx, q).Scan(&dst)] for a [uint8] destination *)
  ext_QueryRowUint8 : Conn -> string -> E -> E * res Z;
  (** [conn.Exec(ctx, q)] *)
  ext_Exec : Conn -> string -> E -> E * option error;
  (** [conn.AsyncInsert(ctx, q, wait)] *)
  ext_AsyncInsert : Conn -> string -> bool -> E -> E * option error;
  (** [time.Now().Unix()] *)
  ext_NowUnix : E -> E * Z;
  (** [exec.Command(name, args...).Output()] *)
  ext_Output : string -> list string -> E -> E * (string * option error)
}.

(** ** The monad of the embedding *)

(** How a Go function stops: it returns, it panics, or [log.Fatal] ends the
    process. *)
Inductive outcome (A : Type) : Type :=
| Ret (a : A)
| Panicked (msg : string)
| Exited (code : Z).
Arguments Ret {A} a.
Arguments Panicked {A} msg.
Arguments Exited {A} code.

Section Program.

Context {E : Type} `{External E}.

(** The state of a run: the environment of the process and the world. *)
Record State : Type := mkState {
  environ : gmap string string;
  world : E
}.

Definition M (A : Type) : Type := State -> State * list event * outcome A.

Definition ret {A} (a : A) : M A := fun s => (s, [], Ret a).

Definition bind {A B} (m : M A) (k : A -> M B) : M B :=
  fun s =>
    match m s with
    | (s1, t1, Ret a) =>
        match k a s1 with
        | (s2, t2, o) => (s2, t1 ++ t2, o)
        end
    | (s1, t1, Panicked msg) => (s1, t1, Panicked msg)
    | (s1, t1, Exited code) => (s1, t1, Exited code)
    end.

Notation "'do' x <- m ; k" := (bind m (fun x => k))
  (at level 10, x name, m at level 100, k at level 200).
Notation "'do' ' p <- m ; k" := (bind m (fun x => match x with p => k end))
  (at level 10, p pattern, m at level 100, k at level 200).
Notation "m ;; k" := (bind m (fun _ => k))
  (at level 100, k at level 200, right associativity).

(** A call to the world: log the event, take the answer. *)
Definition call {A} (ev : event) (f : E -> E * A) : M A :=
  fun s =>
    match f (world s) with
    | (w, a) => (mkState (environ s) w, [ev], Ret a)
    end.

Definition emit (ev : event) : M unit := fun s => (s, [ev], Ret tt).

Definition panic {A} (msg : string) : M A := fun s => (s, [], Panicked msg).

(** [log.Fatal]: write the message to standard error, exit with status 1. *)
Definition log_Fatal {A} (msg : string) : M A :=
  fun s => (s, [EvStderr msg], Exited 1).

Definition os_Getenv (key : string) : M string :=
  fun s => (s, [], Ret (Getenv (environ s) key)).

Definition os_ReadFile (path : string) : M (res string) :=
  call (EvReadFile path) (ext_ReadFile path).

(** [ioutil.ReadDir] *)
Definition ioutil_ReadDir (dir : string) : M (res (list FileInfo)) :=
  do r <- call (EvReadDir dir) (ext_readdir dir);
  match r with
  | Ok l => ret (Ok (sort_by_name l))
  | Err e => ret (Err e)
  end.

Definition fmt_Println (text : string) : M unit :=
  emit (EvStdout (text +:+ nl)).

(** [fmt.Printf("%s\n", out)] *)
Definition fmt_Printf_s_nl (out : string) : M unit :=
  emit (EvStdout (out +:+ nl)).

(** [clickhouse.Open]: [(conn, nil)] or [(nil, err)]. *)
Definition clickhouse_Open (o : Options) : M (option Conn * option error) :=
  do e <- call (EvOpen o) (ext_Open o);
  match e with
  | None => ret (Some (mkConn o), None)
  | Some err => ret (None, Some err)
  end.

(** [db.QueryRow(ctx, q).Scan(&dst)]: the destination keeps the value it had
    when [Scan] fails. *)
Definition QueryRow_Scan_string (db : Conn) (q : string) (dst : string)
  : M (string * option error) :=
  do r <- call (EvQueryRow q) (ext_QueryRowString db q);
  match r with
  | Ok v => ret (v, None)
  | Err e => ret (dst, Some e)
  end.

Definition QueryRow_Scan_uint8 (db : Conn) (q : string) (dst : Z)
  : M (Z * option error) :=
  do r <- call (EvQueryRow q) (ext_QueryRowUint8 db q);
  match r with
  | Ok v => ret (v, None)
  | Err e => ret (dst, Some e)
  end.

Definition db_Exec (db : Conn) (q : string) : M (option error) :=
  call (EvExec q) (ext_Exec db q).

Definition db_AsyncInsert (db : Conn) (q : string) (wait : bool)
  : M (option error) :=
  call (EvAsyncInsert q wait) (ext_AsyncInsert db q wait).

Definition time_Now_Unix : M Z :=
  fun s =>
    match ext_NowUnix (world s) with
    | (w, t) => (mkState (environ s) w, [], Ret t)
    end.

Definition exec_Command_Output (name : string) (args : list string)
  : M (string * option error) :=
  call (EvCommand name args) (ext_Output name args).

(** [godotenv.Load()]: read [.env], parse it, and set every variable of it
    that the process does not have yet. *)
Definition godotenv_Load : M (option error) :=
  do r <- os_ReadFile ".env";
  match r with
  | Err e => ret (Some e)
  | Ok content =>
      match ext_ParseDotenv content with
      | Err e => ret (Some e)
      | Ok envMap =>
          fun s => (mkState (environ s ∪ envMap) (world s), [], Ret None)
      end
  end.

(** ** The program *)

(** [getDbConn] *)
Definition getDbConn (isTest : bool) : M (option Conn * option error) :=
  do localAddr <- os_Getenv "DB_LOCAL_ADDR";
  do addr <- os_Getenv "DB_ADDR";
  let addr := if String.eqb addr "" then localAddr else addr in
  if String.eqb addr "" then
    ret (None,
         Some (ErrMsg
           "environment variable DB_ADDR or DB_LOCAL_ADDR required for migrations"))
  else
    do dbName <- os_Getenv "DB_NAME";
    let dbName := if String.eqb dbName "" then "logme" else dbName in
    let dbSuffix := if isTest then "_test" else "" in
    do user <- os_Getenv "DB_USER";
    let username := if negb (String.eqb user "") then user else "" in
    do pass <- os_Getenv "DB_PASS";
    let password := if negb (String.eqb pass "") then pass else "" in
    let auth := mkAuth (dbName +:+ dbSuffix) username password in
    do '(conn, err) <- clickhouse_Open
         (mkOptions [addr] auth CompressionLZ4 [("max_execution_time", 60)]);
    match err with
    | Some e => ret (None, Some e)
    | None => ret (conn, None)
    end.

Definition sqlShowTables : string := "SHOW TABLES LIKE 'migrations'".

Definition sqlCreateTable : string :=
  nl +:+ tab +:+ tab +:+ "CREATE TABLE IF NOT EXISTS migrations (" +:+
  nl +:+ tab +:+ tab +:+ tab +:+ "name       String," +:+
  nl +:+ tab +:+ tab +:+ tab +:+ "dt         DateTime" +:+
  nl +:+ tab +:+ tab +:+ ") engine=MergeTree() ORDER BY (name, dt)" +:+
  nl +:+ tab.

(** The test both lookups make on the error of [Scan]:
    [if err != nil { if !errors.Is(err, sql.ErrNoRows) { ... } }]. *)
Definition unknownError (err : option error) : option error :=
  match err with
  | Some e => if negb (errors_Is_ErrNoRows e) then Some e else None
  | None => None
  end.

(** [createMigrationsTable] *)
Definition createMigrationsTable (db : Conn) : M (option error) :=
  do '(exists_, err) <- QueryRow_Scan_string db sqlShowTables "";
  match unknownError err with
  | Some e => panic (Error e)
  | None =>
      if negb (String.eqb exists_ "") then ret None
      else
        do err <- db_Exec db sqlCreateTable;
        match err with
        | Some e => ret (Some e)
        | None => ret None
        end
  end.

Definition migrationDir : string := "internal/logme/migrations/".

(** [fmt.Sprintf("SELECT 1 FROM migrations WHERE name = '%s'", name)] *)
Definition sqlExists (name : string) : string :=
  "SELECT 1 FROM migrations WHERE name = '" +:+ name +:+ "'".

(** [fmt.Sprintf(`INSERT INTO migrations (name, dt) VALUES ('%s', %d)`,
    name, now)] *)
Definition sqlInsert (name : string) (now : Z) : string :=
  "INSERT INTO migrations (name, dt) VALUES ('" +:+ name +:+ "', " +:+
  fmt_d now +:+ ")".

(** How one turn of the [for] loop of [runMigrations] ends. *)
Inductive flow : Type :=
| Continue
| Return (err : error).

(** The body of the loop of [runMigrations], for one directory entry. *)
Definition migrateFile (db : Conn) (file : FileInfo) : M flow :=
  if IsDir file then ret Continue
  else if negb (HasSuffix (Name file) ".sql") then ret Continue
  else
    do '(exists_, err) <- QueryRow_Scan_uint8 db (sqlExists (Name file)) 0;
    match unknownError err with
    | Some e => ret (Return e)
    | None =>
        if exists_ =? 1 then ret Continue
        else
          do content <- os_ReadFile (migrationDir +:+ Name file);
          match content with
          | Err e => ret (Return e)
          | Ok content =>
              do err <- db_Exec db content;
              match err with
              | Some e => ret (Return e)
              | None =>
                  do now <- time_Now_Unix;
                  do err <- db_AsyncInsert db (sqlInsert (Name file) now) false;
                  match err with
                  | Some e => ret (Return e)
                  | None =>
                      fmt_Println ("Successfully migrated: " +:+ Name file) ;;
                      ret Continue
                  end
              end
          end
    end.

(** The [for _, file := range files] loop. *)
Fixpoint migrateFiles (db : Conn) (files : list FileInfo) : M (option error) :=
  match files with
  | [] => ret None
  | file :: rest =>
      do f <- migrateFile db file;
      match f with
      | Continue => migrateFiles db rest
      | Return e => ret (Some e)
      end
  end.

(** [runMigrations] *)
Definition runMigrations (db : Conn) : M (option error) :=
  do files <- ioutil_ReadDir migrationDir;
  match files with
  | Err e => ret (Some e)
  | Ok files => migrateFiles db files
  end.

(** [migrate] *)
Definition migrate (isTest : bool) : M (option error) :=
  do '(db, err) <- getDbConn isTest;
  match err, db with
  | Some e, _ => ret (Some e)
  | None, None => panic "invalid memory address or nil pointer dereference"
  | None, Some db =>
      do err <- createMigrationsTable db;
      match err with
      | Some e => ret (Some e)
      | None => runMigrations db
      end
  end.

(** [up]; the fourth word ends up as [$0] of the shell. *)
Definition up : M (option error) :=
  do '(out, err) <- exec_Command_Output "/bin/sh"
                      ["-c"; "docker-compose up"; "-d"];
  match err with
  | Some e => ret (Some e)
  | None => fmt_Printf_s_nl out ;; ret None
  end.

(** [down] *)
Definition down : M (option error) :=
  do '(out, err) <- exec_Command_Output "/bin/sh" ["-c"; "docker-compose down"];
  match err with
  | Some e => ret (Some e)
  | None => fmt_Printf_s_nl out ;; ret None
  end.

Definition dockerPs : string :=
  "docker ps --format " +:+ dq +:+
  "table {{.ID}}" +:+ tab +:+ "{{.Names}}" +:+ tab +:+ "{{.State}}" +:+ tab +:+
  "{{.Ports}}" +:+ dq.

(** [list] *)
Definition list_ : M (option error) :=
  do '(out, err) <- exec_Command_Output "/bin/sh" ["-c"; dockerPs];
  match err with
  | Some e => ret (Some e)
  | None => fmt_Printf_s_nl out ;; ret None
  end.

(** [test]: [out, _ := ...], the error of the command is dropped. *)
Definition test : M (option error) :=
  do '(out, _) <- exec_Command_Output "/bin/sh"
        ["-c"; "docker exec -i logme_server /usr/local/go/bin/go test"];
  fmt_Printf_s_nl out ;;
  ret None.

(** [cli.Command], as far as [main] fills it in. *)
Record Command : Type := mkCommand {
  cmd_Name : string;
  cmd_Aliases : list string;
  cmd_Action : M (option error)
}.

(** The commands of the [cli.App].  [main] sorts them by name before it runs
    the application; no two of them share a name or an alias, so the choice
    of a command does not depend on their order. *)
Definition commands : list Command :=
  [ mkCommand "migrate" ["m"] (migrate false);
    mkCommand "migrate-test" ["mt"] (migrate true);
    mkCommand "up" ["u"] up;
    mkCommand "down" ["d"] down;
    mkCommand "list" ["l"] list_;
    mkCommand "test" ["t"] test ].

(** [Command.HasName] *)
Definition HasName (c : Command) (name : string) : bool :=
  existsb (String.eqb name) (cmd_Name c :: cmd_Aliases c).

(** [app.Run(os.Args)]: the word after the program name chooses the command
    and the error of its action is the result.  Everything the library does
    when no command is chosen (usage, help) is one event. *)
Definition app_Run (args : list string) : M (option error) :=
  match args with
  | _ :: name :: _ =>
      match List.find (fun c => HasName c name) commands with
      | Some c => cmd_Action c
      | None => emit EvUsage ;; ret None
      end
  | _ => emit EvUsage ;; ret None
  end.

(** [main] *)
Definition main (args : list string) : M unit :=
  do err <- godotenv_Load;
  match err with
  | Some _ => log_Fatal "Error loading .env file"
  | None =>
      do err <- app_Run args;
      match err with
      | Some e => log_Fatal (Error e)
      | None => ret tt
      end
  end.

End Program.

Arguments State E : clear implicits.
Arguments M E A : clear implicits.

(** ** The earlier revision

    The file also holds the revision before [DB_LOCAL_ADDR] and the shell
    commands came in.  Its [createMigrationsTable], [runMigrations] and the
    body of [migrate] are the same text as above; [getDbConn] knows one
    variable for the address, and the two commands are called [m] and [mt]
    and have no aliases. *)
Module V1.

Section Program.

Context {E : Type} `{External E}.

Notation "'do' x <- m ; k" := (bind m (fun x => k))
  (at level 10, x name, m at level 100, k at level 200).
Notation "'do' ' p <- m ; k" := (bind m (fun x => match x with p => k end))
  (at level 10, p pattern, m at level 100, k at level 200).

(** [getDbConn] *)
Definition getDbConn (isTest : bool) : M E (option Conn * option error) :=
  do addr <- os_Getenv "DB_ADDR";
  if String.eqb addr "" then
    ret (None,
         Some (ErrMsg "environment variable DB_ADDR required for migrations"))
  else
    do dbName <- os_Getenv "DB_NAME";
    let dbName := if String.eqb dbName "" then "logme" else dbName in
    let dbSuffix := if isTest then "_test" else "" in
    do user <- os_Getenv "DB_USER";
    let username := if negb (String.eqb user "") then user else "" in
    do pass <- os_Getenv "DB_PASS";
    let password := if negb (String.eqb pass "") then pass else "" in
    let auth := mkAuth (dbName +:+ dbSuffix) username password in
    do '(conn, err) <- clickhouse_Open
         (mkOptions [addr] auth CompressionLZ4 [("max_execution_time", 60)]);
    match err with
    | Some e => ret (None, Some e)
    | None => ret (conn, None)
    end.

(** [migrate] *)
Definition migrate (isTest : bool) : M E (option error) :=
  do '(db, err) <- getDbConn isTest;
  match err, db with
  | Some e, _ => ret (Some e)
  | None, None => panic "invalid memory address or nil pointer dereference"
  | None, Some db =>
      do err <- createMigrationsTable db;
      match err with
      | Some e => ret (Some e)
      | None => runMigrations db
      end
  end.

Definition commands : list (@Command E) :=
  [ mkCommand "m" [] (migrate false);
    mkCommand "mt" [] (migrate true) ].

(** [app.Run(os.Args)] *)
Definition app_Run (args : list string) : M E (option error) :=
  match args with
  | _ :: name :: _ =>
      match List.find (fun c => HasName c name) commands with
      | Some c => cmd_Action c
      | None => bind (emit EvUsage) (fun _ => ret None)
      end
  | _ => bind (emit EvUsage) (fun _ => ret None)
  end.

(** [main] *)
Definition main (args : list string) : M E unit :=
  do err <- godotenv_Load;
  match err with
  | Some _ => log_Fatal "Error loading .env file"
  | None =>
      do err <- app_Run args;
      match err with
      | Some e => log_Fatal (Error e)
      | None => ret tt
      end
  end.

End Program.

End V1.

(** ** The vocabulary of the statements *)

(** The character that closes the quoted name in both statements. *)
Definition apostrophe : ascii := "039"%char.

(** [about name ev]: the event is a lookup, a read, an insert or a notice
    for the file called [name].  (An [EvExec] carries the content of a file
    and not its name; it is tied to its file by its place in the trace.) *)
Definition about (name : string) (ev : event) : Prop :=
  match ev with
  | EvQueryRow q => q = sqlExists name
  | EvReadFile path => path = migrationDir +:+ name
  | EvAsyncInsert q _ => exists now, q = sqlInsert name now
  | EvStdout text => text = "Successfully migrated: " +:+ name +:+ nl
  | _ => False
  end.

(** What a lookup answered, read the way [migrateFile] reads it. *)
Definition noRecord (r : res Z) : Prop :=
  match r with
  | Ok v => v ≠ 1
  | Err e => is_ErrNoRows e = true
  end.

(** The entries the loop does not pass over: regular files named [*.sql]. *)
Definition candidate (file : FileInfo) : bool :=
  negb (IsDir file) && HasSuffix (Name file) ".sql".

(** Every event of a turn is about the file of that turn, or is the
    execution of what was read from it. *)
Definition of_file (file : FileInfo) (ev : event) : Prop :=
  about (Name file) ev \/ exists content, ev = EvExec content.

(** The five events of a migration that is applied. *)
Definition applied (file : FileInfo) (content : string) (now : Z) : list event :=
  [ EvQueryRow (sqlExists (Name file));
    EvReadFile (migrationDir +:+ Name file);
    EvExec content;
    EvAsyncInsert (sqlInsert (Name file) now) false;
    EvStdout ("Successfully migrated: " +:+ Name file +:+ nl) ].

(** The events of the turn of a file that is applied, letter by letter:
    the lookup, the read, the execution, the insert with the name and the
    decimal time stamp, and the notice. *)
Definition turnEvents (name content : string) (now : Z) : list event :=
  [ EvQueryRow ("SELECT 1 FROM migrations WHERE name = '" +:+ name +:+ "'");
    EvReadFile ("internal/logme/migrations/" +:+ name);
    EvExec content;
    EvAsyncInsert
      ("INSERT INTO migrations (name, dt) VALUES ('" +:+ name +:+ "', " +:+
       NilZero.string_of_int (Z.to_int now) +:+ ")")
      false;
    EvStdout ("Successfully migrated: " +:+ name +:+ String "010"%char "") ].

(** [b] is what the turn of [file] left in the trace: the lookup for
    [file] and, as far as the turn went, the events after it. *)
Definition turnOf (file : FileInfo) (b : list event) : Prop :=
  exists content now k,
    (1 <= k)%nat /\ b = take k (turnEvents (Name file) content now).

(** A turn that went to its end: the lookup alone (the ledger had a row), or
    all five events, through the insert and the notice. *)
Definition complete (b : list event) : Prop :=
  length b = 1%nat \/ length b = 5%nat.

(** Kinds of events, for counting them in a trace. *)
Definition isLookup (ev : event) : bool :=
  match ev with EvQueryRow _ => true | _ => false end.
Definition isRead (ev : event) : bool :=
  match ev with EvReadFile _ => true | _ => false end.
Definition isExec (ev : event) : bool :=
  match ev with EvExec _ => true | _ => false end.
Definition isInsert (ev : event) : bool :=
  match ev with EvAsyncInsert _ _ => true | _ => false end.
Definition isNotice (ev : event) : bool :=
  match ev with EvStdout _ => true | _ => false end.
Definition isOpen (ev : event) : bool :=
  match ev with EvOpen _ => true | _ => false end.

(** The events that reach the store or the migration directory. *)
Definition isStoreOrFile (ev : event) : bool :=
  match ev with
  | EvQueryRow _ | EvExec _ | EvAsyncInsert _ _ | EvReadDir _ | EvReadFile _ =>
      true
  | _ => false
  end.

Definition count (p : event -> bool) (t : list event) : nat :=
  length (List.filter p t).

(** The error of the earlier [getDbConn]. *)
Definition addressRequired : error :=
  ErrMsg "environment variable DB_ADDR required for migrations".

(** The error [getDbConn] makes up when it has no address. *)
Definition configError : error :=
  ErrMsg "environment variable DB_ADDR or DB_LOCAL_ADDR required for migrations".

(** A variable the process has no value for, or an empty one: [os.Getenv]
    cannot tell the two apart. *)
Definition unsetOrEmpty (env : gmap string string) (key : string) : Prop :=
  env !! key = None \/ env !! key = Some "".

(** The options [getDbConn] opens the connection with. *)
Definition dbOptions (isTest : bool) (env : gmap string string) : Options :=
  mkOptions
    [ if String.eqb (Getenv env "DB_ADDR") ""
      then Getenv env "DB_LOCAL_ADDR" else Getenv env "DB_ADDR" ]
    (mkAuth
       ((if String.eqb (Getenv env "DB_NAME") "" then "logme"
         else Getenv env "DB_NAME") +:+ (if isTest then "_test" else ""))
       (Getenv env "DB_USER")
       (Getenv env "DB_PASS"))
    CompressionLZ4
    [("max_execution_time", 60)].

(** The resolution in the words of the specification: a variable counts
    when it holds a non-empty value; the address is that of [DB_ADDR] or
    else that of [DB_LOCAL_ADDR]; the database is named after [DB_NAME] or
    else [logme], with [_test] appended in test mode. *)
Definition nonEmpty (env : gmap string string) (key : string) : option string :=
  match env !! key with
  | Some v => if String.eqb v "" then None else Some v
  | None => None
  end.

Definition resolveAddr (env : gmap string string) : option string :=
  match nonEmpty env "DB_ADDR" with
  | Some a => Some a
  | None => nonEmpty env "DB_LOCAL_ADDR"
  end.

Definition resolveDatabase (isTest : bool) (env : gmap string string) : string :=
  default "logme" (nonEmpty env "DB_NAME") +:+ (if isTest then "_test" else "").

(** Does the text [word] occur in [stmt]? *)
Definition mentions (stmt word : string) : bool :=
  match String.index 0 word stmt with
  | Some _ => true
  | None => false
  end.

(** What the probe [SHOW TABLES LIKE 'migrations'] answered, read the way
    [createMigrationsTable] reads it. *)
Definition tablePresent (r : res string) : bool :=
  match r with
  | Ok v => negb (String.eqb v "")
  | Err _ => false
  end.

(** No row, or an empty name: the table is taken to be absent. *)
Definition tableAbsent (r : res string) : bool :=
  match r with
  | Ok v => String.eqb v ""
  | Err e => is_ErrNoRows e
  end.

(** The words [test] hands to [/bin/sh]. *)
Definition goTest : list string :=
  ["-c"; "docker exec -i logme_server /usr/local/go/bin/go test"].

(** ** A world to run the program in

    A small store that answers the two lookups from what it holds, rejects
    the statements it is told to reject, and accepts everything else.
    Asynchronous inserts are queued: they do not show up in lookups of the
    same run. *)
Module Sim.

Record t : Type := mk {
  files : list (string * string);   (* path, content *)
  dir : list FileInfo;              (* entries of [migrationDir], unsorted *)
  table : bool;                     (* does [migrations] exist? *)
  recorded : list string;           (* names the ledger has a row for *)
  queued : list string;             (* inserts accepted so far *)
  rejected : list string;           (* statements the server refuses *)
  broken : option error;            (* set: every lookup fails with it *)
  clock : Z;
  shell : string * option error     (* what any shell command yields *)
}.

Definition ReadFile (path : string) (w : t) : t * res string :=
  match List.find (fun kv => String.eqb path (fst kv)) (files w) with
  | Some kv => (w, Ok (snd kv))
  | None => (w, Err (ErrMsg ("open " +:+ path +:+ ": no such file or directory")))
  end.

Definition readdir (d : string) (w : t) : t * res (list FileInfo) :=
  if String.eqb d migrationDir then (w, Ok (dir w))
  else (w, Err (ErrMsg ("open " +:+ d +:+ ": no such file or directory"))).

Definition QueryRowString (c : Conn) (q : string) (w : t) : t * res string :=
  match broken w with
  | Some e => (w, Err e)
  | None =>
      if String.eqb q sqlShowTables && table w then (w, Ok "migrations")
      else (w, Err ErrNoRows)
  end.

Definition QueryRowUint8 (c : Conn) (q : string) (w : t) : t * res Z :=
  match broken w with
  | Some e => (w, Err e)
  | None =>
      if existsb (fun n => String.eqb q (sqlExists n)) (recorded w)
      then (w, Ok 1)
      else (w, Err ErrNoRows)
  end.

Definition Exec (c : Conn) (q : string) (w : t) : t * option error :=
  if existsb (String.eqb q) (rejected w)
  then (w, Some (ErrMsg "code: 62, message: Syntax error"))
  else
    (mk (files w) (dir w) (table w || String.eqb q sqlCreateTable)
        (recorded w) (queued w) (rejected w) (broken w) (clock w) (shell w),
     None).

Definition AsyncInsert (c : Conn) (q : string) (wait : bool) (w : t)
  : t * option error :=
  (mk (files w) (dir w) (table w) (recorded w) (queued w ++ [q])
      (rejected w) (broken w) (clock w) (shell w),
   None).

(** A parser for [.env] files that have one [KEY=VALUE] on each line. *)
Fixpoint cut (c : ascii) (s : string) : option (string * string) :=
  match s with
  | EmptyString => None
  | String a rest =>
      if Ascii.eqb a c then Some (EmptyString, rest)
      else
        match cut c rest with
        | Some (l, r) => Some (String a l, r)
        | None => None
        end
  end.

Fixpoint split_lines (fuel : nat) (s : string) : list string :=
  match fuel with
  | O => [s]
  | S fuel =>
      match cut "010"%char s with
      | Some (l, r) => l :: split_lines fuel r
      | None => [s]
      end
  end.

Definition ParseDotenv (content : string) : res (gmap string string) :=
  foldr
    (fun line acc =>
       match acc with
       | Err e => Err e
       | Ok m =>
           if String.eqb line "" then Ok m
           else
             match cut "="%char line with
             | Some (k, v) => Ok (<[k := v]> m)
             | None => Err (ErrMsg "unexpected character in variable name")
             end
       end)
    (Ok ∅)
    (split_lines (String.length content) content).

Global Instance external : External t := {
  ext_ReadFile := ReadFile;
  ext_readdir := readdir;
  ext_ParseDotenv := ParseDotenv;
  ext_Open := fun _ w => (w, None);
  ext_QueryRowString := QueryRowString;
  ext_QueryRowUint8 := QueryRowUint8;
  ext_Exec := Exec;
  ext_AsyncInsert := AsyncInsert;
  ext_NowUnix := fun w => (w, clock w);
  ext_Output := fun _ _ w => (w, shell w)
}.

(** A fresh checkout: an [.env] file, two migrations listed out of order, a
    text file and a directory next to them, no ledger table yet. *)
Definition fresh : t := {|
  files := [ (".env", "DB_ADDR=127.0.0.1:9000");
             (migrationDir +:+ "002_add_index.sql", "ALTER TABLE logs ADD INDEX i (ts)");
             (migrationDir +:+ "001_init.sql", "CREATE TABLE logs (ts DateTime)");
             (migrationDir +:+ "notes.txt", "remember the index") ];
  dir := [ mkFileInfo "notes.txt" false;
           mkFileInfo "002_add_index.sql" false;
           mkFileInfo "old.sql" true;
           mkFileInfo "001_init.sql" false ];
  table := false;
  recorded := [];
  queued := [];
  rejected := [];
  broken := None;
  clock := 1700000000;
  shell := ("", None)
|}.

Definition with_recorded (names : list string) (w : t) : t :=
  mk (files w) (dir w) true names (queued w) (rejected w) (broken w)
     (clock w) (shell w).

Definition with_rejected (stmts : list string) (w : t) : t :=
  mk (files w) (dir w) (table w) (recorded w) (queued w) stmts (broken w)
     (clock w) (shell w).

Definition with_broken (e : error) (w : t) : t :=
  mk (files w) (dir w) (table w) (recorded w) (queued w) (rejected w) (Some e)
     (clock w) (shell w).

Definition with_shell (r : string * option error) (w : t) : t :=
  mk (files w) (dir w) (table w) (recorded w) (queued w) (rejected w)
     (broken w) (clock w) r.

Definition without_file (path : string) (w : t) : t :=
  mk (List.filter (fun kv => negb (String.eqb path (fst kv))) (files w))
     (dir w) (table w) (recorded w) (queued w) (rejected w) (broken w)
     (clock w) (shell w).

Definition db : Conn :=
  mkConn (mkOptions ["127.0.0.1:9000"] (mkAuth "logme" "" "") CompressionLZ4
            [("max_execution_time", 60)]).

Definition env0 : gmap string string := {[ "DB_ADDR" := "127.0.0.1:9000" ]}.

Definition start (w : t) : State t := mkState env0 w.

(** The entries of the fresh checkout, and an error of the network. *)
Definition init_sql : FileInfo := mkFileInfo "001_init.sql" false.
Definition add_index_sql : FileInfo := mkFileInfo "002_add_index.sql" false.
Definition notes_txt : FileInfo := mkFileInfo "notes.txt" false.
Definition old_sql_dir : FileInfo := mkFileInfo "old.sql" true.
Definition reset : error := ErrMsg "read: connection reset by peer".

End Sim.

(** The same store behind a connection that may refuse to open and a ledger
    that may refuse its inserts. *)
Module Faulty.

Record t : Type := mk {
  base : Sim.t;
  open_error : option error;
  insert_error : option error
}.

Definition lift {A} (f : Sim.t -> Sim.t * A) (w : t) : t * A :=
  match f (base w) with
  | (b, a) => (mk b (open_error w) (insert_error w), a)
  end.

Definition AsyncInsert (c : Conn) (q : string) (wait : bool) (w : t)
  : t * option error :=
  match insert_error w with
  | Some e => (w, Some e)
  | None => lift (Sim.AsyncInsert c q wait) w
  end.

Global Instance external : External t := {
  ext_ReadFile := fun path => lift (Sim.ReadFile path);
  ext_readdir := fun d => lift (Sim.readdir d);
  ext_ParseDotenv := Sim.ParseDotenv;
  ext_Open := fun _ w => (w, open_error w);
  ext_QueryRowString := fun c q => lift (Sim.QueryRowString c q);
  ext_QueryRowUint8 := fun c q => lift (Sim.QueryRowUint8 c q);
  ext_Exec := fun c q => lift (Sim.Exec c q);
  ext_AsyncInsert := AsyncInsert;
  ext_NowUnix := fun w => (w, Sim.clock (base w));
  ext_Output := fun _ _ w => (w, Sim.shell (base w))
}.

Definition quota : error := ErrMsg "code: 201, message: Quota exceeded".
Definition refused : error := ErrMsg "dial tcp: connection refused".

(** The fresh checkout, with a ledger that takes no insert. *)
Definition read_only : t := mk Sim.fresh None (Some quota).

(** The fresh checkout, with a server that is down. *)
Definition down : t := mk Sim.fresh (Some refused) None.

End Faulty.

(** More checkouts. *)
Module Worlds.

Import Sim.

Definition with_dir (entries : list FileInfo) (w : t) : t :=
  mk (files w) entries (table w) (recorded w) (queued w) (rejected w)
     (broken w) (clock w) (shell w).

Definition with_dotenv (content : string) (w : t) : t :=
  mk ((".env", content) :: files (without_file ".env" w)) (dir w) (table w)
     (recorded w) (queued w) (rejected w) (broken w) (clock w) (shell w).

(** A directory with nothing to migrate in it. *)
Definition no_migrations : t := with_dir [notes_txt; old_sql_dir] fresh.

(** A checkout whose [.env] names the database only. *)
Definition no_address : t := with_dotenv "DB_NAME=events" fresh.

(** A checkout from which [001_init.sql] has disappeared after it was
    listed. *)
Definition vanished : t := without_file (migrationDir +:+ "001_init.sql") fresh.

End Worlds.

(** ** The statements name their file

    Two different file names never give the same lookup, the same path or
    the same insert, whatever the time stamps are. *)

Section Statements.

Lemma list_ascii_app (a b : string) :
  String.list_ascii_of_string (a +:+ b) =
  String.list_ascii_of_string a ++ String.list_ascii_of_string b.
Proof. induction a as [|c a IH]; simpl; [reflexivity|]. now rewrite IH. Qed.

Lemma list_ascii_inj (a b : string) :
  String.list_ascii_of_string a = String.list_ascii_of_string b -> a = b.
Proof.
  intros Hab. rewrite <- (String.string_of_list_ascii_of_string a),
    <- (String.string_of_list_ascii_of_string b). now rewrite Hab.
Qed.

(** Cutting two equal lists at the last [x] of each gives equal parts. *)
Lemma last_occurrence {A} (x : A) (l1 l2 r1 r2 : list A) :
  x ∉ r1 -> x ∉ r2 -> l1 ++ x :: r1 = l2 ++ x :: r2 -> l1 = l2.
Proof.
  intros H1 H2. revert l2.
  induction l1 as [|a l1 IH]; intros [|b l2]; simpl; intros Heq.
  - reflexivity.
  - injection Heq as -> ->. exfalso. apply H1. set_solver.
  - injection Heq as -> <-. exfalso. apply H2. set_solver.
  - injection Heq as -> Heq. f_equal. now apply IH.
Qed.

Lemma string_of_uint_no_apostrophe (d : Decimal.uint) :
  apostrophe ∉ String.list_ascii_of_string (NilEmpty.string_of_uint d).
Proof.
  induction d; simpl; rewrite ?elem_of_cons; try (intros [Hc|Hc]; [discriminate|tauto]).
  apply not_elem_of_nil.
Qed.

Lemma fmt_d_no_apostrophe (n : Z) :
  apostrophe ∉ String.list_ascii_of_string (fmt_d n).
Proof.
  unfold fmt_d, NilZero.string_of_int.
  destruct (Z.to_int n) as [d|d].
  - unfold NilZero.string_of_uint. destruct d; try apply string_of_uint_no_apostrophe.
    simpl. rewrite elem_of_cons. intros [Hc|Hc]; [discriminate|].
    now apply not_elem_of_nil in Hc.
  - simpl. rewrite elem_of_cons. intros [Hc|Hc]; [discriminate|].
    revert Hc. unfold NilZero.string_of_uint.
    destruct d; try apply string_of_uint_no_apostrophe.
    simpl. rewrite elem_of_cons. intros [Hc|Hc]; [discriminate|].
    now apply not_elem_of_nil in Hc.
Qed.

Lemma sqlExists_inj (a b : string) : sqlExists a = sqlExists b -> a = b.
Proof.
  unfold sqlExists. intros Heq%(inj (String.app _)).
  apply (f_equal String.list_ascii_of_string) in Heq.
  rewrite !list_ascii_app in Heq. simpl in Heq.
  apply list_ascii_inj.
  eapply (last_occurrence apostrophe); [| |exact Heq]; apply not_elem_of_nil.
Qed.

Lemma migrationPath_inj (a b : string) :
  migrationDir +:+ a = migrationDir +:+ b -> a = b.
Proof. apply (inj (String.app _)). Qed.

Lemma sqlInsert_inj (a b : string) (t u : Z) :
  sqlInsert a t = sqlInsert b u -> a = b.
Proof.
  unfold sqlInsert. intros Heq%(inj (String.app _)).
  apply (f_equal String.list_ascii_of_string) in Heq.
  rewrite !list_ascii_app in Heq. simpl in Heq.
  apply list_ascii_inj.
  eapply (last_occurrence apostrophe); [| |exact Heq].
  - rewrite !elem_of_cons, elem_of_app, elem_of_cons.
    intros [Hc|[Hc|[Hc|[Hc|Hc]]]]; try discriminate.
    + now apply fmt_d_no_apostrophe in Hc.
    + now apply not_elem_of_nil in Hc.
  - rewrite !elem_of_cons, elem_of_app, elem_of_cons.
    intros [Hc|[Hc|[Hc|[Hc|Hc]]]]; try discriminate.
    + now apply fmt_d_no_apostrophe in Hc.
    + now apply not_elem_of_nil in Hc.
Qed.

Lemma migrated_inj (a b : string) :
  "Successfully migrated: " +:+ a +:+ nl = "Successfully migrated: " +:+ b +:+ nl ->
  a = b.
Proof.
  intros Heq%(inj (String.app _)).
  apply (f_equal String.list_ascii_of_string) in Heq.
  rewrite !list_ascii_app in Heq.
  apply list_ascii_inj. now apply app_inv_tail in Heq.
Qed.

End Statements.

Lemma about_inj (a b : string) (ev : event) : about a ev -> about b ev -> a = b.
Proof.
  destruct ev; simpl; try tauto.
  - intros -> Hb. now apply migrationPath_inj.
  - intros -> Hb. now apply sqlExists_inj.
  - intros [t ->] [u Hb]. now apply sqlInsert_inj in Hb.
  - intros -> Hb. now apply migrated_inj.
Qed.

(** ** One turn of the loop *)

#[local] Arguments String.append : simpl never.
#[local] Arguments sqlExists : simpl never.
#[local] Arguments sqlInsert : simpl never.

Section Loop.

Context {E : Type} `{External E}.

Ltac step :=
  unfold migrateFile, QueryRow_Scan_uint8, os_ReadFile, db_Exec, db_AsyncInsert,
    time_Now_Unix, fmt_Println, unknownError, errors_Is_ErrNoRows,
    bind, call, ret, emit.

Lemma candidate_spec (file : FileInfo) :
  candidate file = true ↔ IsDir file = false ∧ HasSuffix (Name file) ".sql" = true.
Proof.
  unfold candidate. destruct (IsDir file), (HasSuffix (Name file) ".sql");
    simpl; intuition congruence.
Qed.

Lemma migrateFile_skip (db : Conn) (file : FileInfo) (s : State E) :
  candidate file = false -> migrateFile db file s = (s, [], Ret Continue).
Proof.
  unfold candidate, migrateFile. intros Hc.
  destruct (IsDir file); [reflexivity|].
  destruct (HasSuffix (Name file) ".sql"); [discriminate|reflexivity].
Qed.

Lemma migrateFile_unknown (db : Conn) (file : FileInfo) (s : State E) w e :
  candidate file = true ->
  ext_QueryRowUint8 db (sqlExists (Name file)) (world s) = (w, Err e) ->
  is_ErrNoRows e = false ->
  migrateFile db file s =
    (mkState (environ s) w, [EvQueryRow (sqlExists (Name file))],
     Ret (Return e)).
Proof.
  intros [Hd Hs]%candidate_spec Hq He. step.
  rewrite Hd, Hs. simpl. rewrite Hq. simpl. rewrite He. reflexivity.
Qed.

Lemma migrateFile_recorded (db : Conn) (file : FileInfo) (s : State E) w :
  candidate file = true ->
  ext_QueryRowUint8 db (sqlExists (Name file)) (world s) = (w, Ok 1) ->
  migrateFile db file s =
    (mkState (environ s) w, [EvQueryRow (sqlExists (Name file))],
     Ret Continue).
Proof.
  intros [Hd Hs]%candidate_spec Hq. step.
  rewrite Hd, Hs. simpl. rewrite Hq. reflexivity.
Qed.

(** After a lookup that found no row the file is read. *)
Lemma migrateFile_pending (db : Conn) (file : FileInfo) (s : State E) w r :
  candidate file = true ->
  ext_QueryRowUint8 db (sqlExists (Name file)) (world s) = (w, r) ->
  noRecord r ->
  migrateFile db file s =
    match ext_ReadFile (migrationDir +:+ Name file) w with
    | (w2, Err e) =>
        (mkState (environ s) w2,
         [EvQueryRow (sqlExists (Name file));
          EvReadFile (migrationDir +:+ Name file)],
         Ret (Return e))
    | (w2, Ok content) =>
        match ext_Exec db content w2 with
        | (w3, Some e) =>
            (mkState (environ s) w3,
             [EvQueryRow (sqlExists (Name file));
              EvReadFile (migrationDir +:+ Name file);
              EvExec content],
             Ret (Return e))
        | (w3, None) =>
            match ext_NowUnix w3 with
            | (w4, now) =>
                match ext_AsyncInsert db (sqlInsert (Name file) now) false w4 with
                | (w5, Some e) =>
                    (mkState (environ s) w5,
                     [EvQueryRow (sqlExists (Name file));
                      EvReadFile (migrationDir +:+ Name file);
                      EvExec content;
                      EvAsyncInsert (sqlInsert (Name file) now) false],
                     Ret (Return e))
                | (w5, None) =>
                    (mkState (environ s) w5,
                     [EvQueryRow (sqlExists (Name file));
                      EvReadFile (migrationDir +:+ Name file);
                      EvExec content;
                      EvAsyncInsert (sqlInsert (Name file) now) false;
                      EvStdout ("Successfully migrated: " +:+ Name file +:+ nl)],
                     Ret Continue)
                end
            end
        end
    end.
Proof.
  intros [Hd Hs]%candidate_spec Hq Hr. step.
  rewrite Hd, Hs. simpl. rewrite Hq. simpl.
  destruct r as [v|e]; simpl in *.
  - apply Z.eqb_neq in Hr. rewrite Hr. simpl.
    destruct (ext_ReadFile _ w) as [w2 [content|e]]; simpl; [|reflexivity].
    destruct (ext_Exec db content w2) as [w3 [e|]]; simpl; [reflexivity|].
    destruct (ext_NowUnix w3) as [w4 now]; simpl.
    destruct (ext_AsyncInsert db _ false w4) as [w5 [e|]]; reflexivity.
  - rewrite Hr. simpl.
    destruct (ext_ReadFile _ w) as [w2 [content|e']]; simpl; [|reflexivity].
    destruct (ext_Exec db content w2) as [w3 [e'|]]; simpl; [reflexivity|].
    destruct (ext_NowUnix w3) as [w4 now]; simpl.
    destruct (ext_AsyncInsert db _ false w4) as [w5 [e'|]]; reflexivity.
Qed.

(** One turn always comes back to the loop: it neither panics nor exits. *)
Lemma migrateFile_returns (db : Conn) (file : FileInfo) (s : State E) :
  exists s' t f, migrateFile db file s = (s', t, Ret f).
Proof.
  destruct (candidate file) eqn:Hc.
  - destruct (ext_QueryRowUint8 db (sqlExists (Name file)) (world s))
      as [w r] eqn:Hq.
    assert (Hcases : noRecord r \/ r = Ok 1 \/
                     exists e, r = Err e /\ is_ErrNoRows e = false).
    { destruct r as [v|e]; simpl.
      - destruct (decide (v = 1)); subst; auto.
      - destruct (is_ErrNoRows e) eqn:He; eauto. }
    destruct Hcases as [Hr | [-> | (e & -> & He)]].
    + rewrite (migrateFile_pending db file s w r Hc Hq Hr).
      destruct (ext_ReadFile _ w) as [w2 [content|e]]; [|eauto].
      destruct (ext_Exec db content w2) as [w3 [e|]]; [eauto|].
      destruct (ext_NowUnix w3) as [w4 now].
      destruct (ext_AsyncInsert db _ false w4) as [w5 [e|]]; eauto.
    + rewrite (migrateFile_recorded db file s w Hc Hq). eauto.
    + rewrite (migrateFile_unknown db file s w e Hc Hq He). eauto.
  - rewrite (migrateFile_skip db file s Hc). eauto.
Qed.

(** The loop over [l1 ++ l2] is the loop over [l1] followed, when that came
    to its end without an error, by the loop over [l2] from the state it
    left. *)
Lemma migrateFiles_app (db : Conn) (l1 l2 : list FileInfo) (s : State E) :
  migrateFiles db (l1 ++ l2) s =
  bind (migrateFiles db l1)
       (fun r => match r with
                 | None => migrateFiles db l2
                 | Some e => ret (Some e)
                 end) s.
Proof.
  revert s. induction l1 as [|file l1 IH]; intros s; simpl.
  - unfold bind, ret. simpl. destruct (migrateFiles db l2 s) as [[s2 t2] o].
    reflexivity.
  - unfold bind in *.
    destruct (migrateFile db file s) as [[s1 t1] [f|msg|code]]; [|reflexivity..].
    destruct f as [|e].
    + rewrite IH.
      destruct (migrateFiles db l1 s1) as [[s2 t2] [r|msg|code]];
        [|reflexivity..].
      destruct r as [e|].
      * unfold ret. simpl. rewrite !app_nil_r. reflexivity.
      * destruct (migrateFiles db l2 s2) as [[s3 t3] o].
        rewrite app_assoc. reflexivity.
    + unfold ret. simpl. rewrite !app_nil_r. reflexivity.
Qed.

Lemma migrateFiles_returns (db : Conn) (files : list FileInfo) (s : State E) :
  exists s' t r, migrateFiles db files s = (s', t, Ret r).
Proof.
  revert s. induction files as [|file files IH]; intros s; simpl.
  - unfold ret. eauto.
  - unfold bind.
    destruct (migrateFile_returns db file s) as (s1 & t1 & f & ->).
    destruct f as [|e].
    + destruct (IH s1) as (s2 & t2 & r & ->). eauto.
    + unfold ret. eauto.
Qed.

(** The loop from one file on, in a single equation. *)
Lemma migrateFiles_cons (db : Conn) (file : FileInfo) (rest : list FileInfo)
      (s : State E) :
  migrateFiles db (file :: rest) s =
  match migrateFile db file s with
  | (s1, t1, Ret Continue) =>
      match migrateFiles db rest s1 with
      | (s2, t2, o) => (s2, t1 ++ t2, o)
      end
  | (s1, t1, Ret (Return e)) => (s1, t1, Ret (Some e))
  | (s1, t1, Panicked msg) => (s1, t1, Panicked msg)
  | (s1, t1, Exited code) => (s1, t1, Exited code)
  end.
Proof.
  simpl. unfold bind.
  destruct (migrateFile db file s) as [[s1 t1] [f|msg|code]]; [|reflexivity..].
  destruct f; [reflexivity|]. unfold ret. rewrite app_nil_r. reflexivity.
Qed.

Lemma migrateFile_events (db : Conn) (file : FileInfo) (s s' : State E) t o :
  migrateFile db file s = (s', t, o) -> Forall (of_file file) t.
Proof.
  assert (Hq : of_file file (EvQueryRow (sqlExists (Name file))))
    by (left; reflexivity).
  assert (Hf : of_file file (EvReadFile (migrationDir +:+ Name file)))
    by (left; reflexivity).
  assert (Hx : forall c, of_file file (EvExec c)) by (right; eauto).
  assert (Hi : forall now, of_file file
                 (EvAsyncInsert (sqlInsert (Name file) now) false))
    by (left; simpl; eauto).
  assert (Ho : of_file file
                 (EvStdout ("Successfully migrated: " +:+ Name file +:+ nl)))
    by (left; reflexivity).
  destruct (candidate file) eqn:Hc.
  - destruct (ext_QueryRowUint8 db (sqlExists (Name file)) (world s))
      as [w r] eqn:Hl.
    assert (Hcases : noRecord r \/ r = Ok 1 \/
                     exists e, r = Err e /\ is_ErrNoRows e = false).
    { destruct r as [v|e]; simpl.
      - destruct (decide (v = 1)); subst; auto.
      - destruct (is_ErrNoRows e) eqn:He; eauto. }
    destruct Hcases as [Hr | [-> | (e & -> & He)]].
    + rewrite (migrateFile_pending db file s w r Hc Hl Hr).
      destruct (ext_ReadFile _ w) as [w2 [content|e]];
        [|intros [= <- <- <-]; auto].
      destruct (ext_Exec db content w2) as [w3 [e|]];
        [intros [= <- <- <-]; auto|].
      destruct (ext_NowUnix w3) as [w4 now].
      destruct (ext_AsyncInsert db _ false w4) as [w5 [e|]];
        intros [= <- <- <-]; auto 10.
    + rewrite (migrateFile_recorded db file s w Hc Hl). intros [= <- <- <-]; auto.
    + rewrite (migrateFile_unknown db file s w e Hc Hl He).
      intros [= <- <- <-]; auto.
  - rewrite (migrateFile_skip db file s Hc). intros [= <- <- <-]; auto.
Qed.

Lemma migrateFiles_events (db : Conn) (files : list FileInfo) (s s' : State E)
      t o :
  migrateFiles db files s = (s', t, o) ->
  Forall (fun ev => exists file, file ∈ files /\ of_file file ev) t.
Proof.
  revert s s' t o. induction files as [|file files IH]; intros s s' t o.
  - simpl. unfold ret. intros [= <- <- <-]. constructor.
  - rewrite migrateFiles_cons.
    destruct (migrateFile db file s) as [[s1 t1] o1] eqn:Hf.
    apply migrateFile_events in Hf.
    assert (Ht1 : Forall (fun ev => exists f, f ∈ file :: files /\ of_file f ev) t1).
    { eapply Forall_impl; [exact Hf|]. intros ev Hev. exists file.
      split; [left|exact Hev]. }
    destruct o1 as [[|e]|msg|code]; try (intros [= <- <- <-]; exact Ht1).
    destruct (migrateFiles db files s1) as [[s2 t2] o2] eqn:Hr.
    apply IH in Hr. intros [= <- <- <-]. apply Forall_app. split; [exact Ht1|].
    eapply Forall_impl; [exact Hr|]. intros ev (f & Hin & Hev). exists f.
    split; [right; exact Hin|exact Hev].
Qed.

(** The loop over files none of which is called [name] does nothing about
    [name]. *)
Lemma migrateFiles_not_about (db : Conn) (files : list FileInfo)
      (s s' : State E) t o (name : string) :
  name ∉ Name <$> files ->
  migrateFiles db files s = (s', t, o) ->
  Forall (fun ev => ¬ about name ev) t.
Proof.
  intros Hname Hrun. apply migrateFiles_events in Hrun.
  eapply Forall_impl; [exact Hrun|]. intros ev (f & Hin & Hev) Hab.
  destruct Hev as [Hev|[c ->]]; [|exact Hab].
  apply Hname. rewrite (about_inj _ _ _ Hab Hev).
  apply list_elem_of_fmap. eauto.
Qed.

End Loop.

(** ** The order of the listing *)

Global Instance name_le_trans : Transitive name_le.
Proof. intros a b c. unfold name_le. apply transitivity. Qed.

Global Instance name_le_total : Total name_le.
Proof. intros a b. unfold name_le. apply total, _. Qed.

Lemma sort_by_name_sorted (l : list FileInfo) :
  StronglySorted name_le (sort_by_name l).
Proof. apply StronglySorted_merge_sort; apply _. Qed.

Lemma sort_by_name_perm (l : list FileInfo) : sort_by_name l ≡ₚ l.
Proof. apply merge_sort_Permutation. Qed.

Lemma sort_by_name_NoDup (l : list FileInfo) :
  NoDup (Name <$> l) -> NoDup (Name <$> sort_by_name l).
Proof.
  intros Hnd. now rewrite sort_by_name_perm.
Qed.

Lemma NoDup_names_split (l1 l2 : list FileInfo) (file : FileInfo) :
  NoDup (Name <$> (l1 ++ file :: l2)) ->
  (Name file ∉ Name <$> l1) /\ (Name file ∉ Name <$> l2) /\
  (forall f, f ∈ l2 -> Name f ∉ Name <$> l1) /\
  (forall f, f ∈ l2 -> Name f ≠ Name file).
Proof.
  rewrite fmap_app, fmap_cons. intros Hnd.
  apply NoDup_app in Hnd as (Hl1 & Hdisj & Hr).
  apply NoDup_cons in Hr as (Hnin & Hl2).
  repeat split.
  - intros Hin. apply (Hdisj _ Hin). left.
  - exact Hnin.
  - intros f Hf Hin. apply (Hdisj _ Hin). right.
    apply list_elem_of_fmap. eauto.
  - intros f Hf Heq. apply Hnin. rewrite <- Heq.
    apply list_elem_of_fmap. eauto.
Qed.

(** ** The run over the directory *)

Section Run.

Context {E : Type} `{External E}.

(** [runMigrations] is the loop over the sorted listing. *)
Lemma runMigrations_listing (db : Conn) (s : State E) w0 raw :
  ext_readdir migrationDir (world s) = (w0, Ok raw) ->
  runMigrations db s =
    match migrateFiles db (sort_by_name raw) (mkState (environ s) w0) with
    | (s', t, o) => (s', EvReadDir migrationDir :: t, o)
    end.
Proof.
  intros Hd. unfold runMigrations, ioutil_ReadDir, bind, call, ret.
  rewrite Hd. simpl.
  destruct (migrateFiles db (sort_by_name raw) _) as [[s' t] o]. reflexivity.
Qed.

(** The loop, cut at one file of the listing whose predecessors all went
    through. *)
Lemma migrateFiles_at (db : Conn) (l1 l2 : list FileInfo) (file : FileInfo)
      (s s1 : State E) t1 :
  migrateFiles db l1 s = (s1, t1, Ret None) ->
  migrateFiles db (l1 ++ file :: l2) s =
    match migrateFile db file s1 with
    | (s2, tf, Ret Continue) =>
        match migrateFiles db l2 s2 with
        | (s3, t2, o) => (s3, t1 ++ tf ++ t2, o)
        end
    | (s2, tf, Ret (Return e)) => (s2, t1 ++ tf, Ret (Some e))
    | (s2, tf, Panicked msg) => (s2, t1 ++ tf, Panicked msg)
    | (s2, tf, Exited code) => (s2, t1 ++ tf, Exited code)
    end.
Proof.
  intros H1. rewrite migrateFiles_app. unfold bind at 1. rewrite H1.
  rewrite migrateFiles_cons.
  destruct (migrateFile db file s1) as [[s2 tf] [[|e]|msg|code]]; try reflexivity.
  destruct (migrateFiles db l2 s2) as [[s3 t2] o]. reflexivity.
Qed.

Lemma applied_turnEvents (file : FileInfo) (content : string) (now : Z) :
  applied file content now = turnEvents (Name file) content now.
Proof. reflexivity. Qed.

(** C1, as the code has it.  Let the run reach a migration file [F] (the
    files before it went through without an error) for which the lookup
    finds no row, and let its content be readable.  Then the content is
    executed once.  If the store refuses it, the run ends there with that
    error and no insert is issued.  If the store accepts it, the clock is
    read and one insert is issued, whose text carries the name of [F] and
    the time in decimal; if the insert is refused the run ends there with
    that error, and otherwise the notice follows and the run goes on with
    the files after [F], whatever becomes of them.  In every case nothing
    before these events and nothing after them is a lookup, a read, an
    insert or a notice for [F]. *)
Theorem runMigrations_applies_pending_once
    (db : Conn) (s s1 : State E) (w0 w w2 w3 w4 w5 : E)
    (raw l1 l2 : list FileInfo) (F : FileInfo) (t1 : list event) (r : res Z)
    (content : string) (xerr ierr : option error) (now : Z) :
  ext_readdir migrationDir (world s) = (w0, Ok raw) ->
  NoDup (Name <$> raw) ->
  sort_by_name raw = l1 ++ F :: l2 ->
  candidate F = true ->
  migrateFiles db l1 (mkState (environ s) w0) = (s1, t1, Ret None) ->
  ext_QueryRowUint8 db (sqlExists (Name F)) (world s1) = (w, r) ->
  noRecord r ->
  ext_ReadFile (migrationDir +:+ Name F) w = (w2, Ok content) ->
  ext_Exec db content w2 = (w3, xerr) ->
  ext_NowUnix w3 = (w4, now) ->
  ext_AsyncInsert db (sqlInsert (Name F) now) false w4 = (w5, ierr) ->
  Forall (fun ev => ¬ about (Name F) ev) t1 /\
  match xerr, ierr with
  | Some e, _ =>
      runMigrations db s =
        (mkState (environ s1) w3,
         EvReadDir "internal/logme/migrations/" :: t1 ++
           take 3 (turnEvents (Name F) content now),
         Ret (Some e))
  | None, Some e =>
      runMigrations db s =
        (mkState (environ s1) w5,
         EvReadDir "internal/logme/migrations/" :: t1 ++
           take 4 (turnEvents (Name F) content now),
         Ret (Some e))
  | None, None =>
      exists s' t2 o,
        migrateFiles db l2 (mkState (environ s1) w5) = (s', t2, o) /\
        runMigrations db s =
          (s',
           EvReadDir "internal/logme/migrations/" :: t1 ++
             turnEvents (Name F) content now ++ t2,
           o) /\
        Forall (fun ev => ¬ about (Name F) ev) t2
  end.
Proof.
  intros Hdir Hnd Hsplit Hc H1 Hq Hr Hread Hexec Hnow Hins.
  apply sort_by_name_NoDup in Hnd. rewrite Hsplit in Hnd.
  apply NoDup_names_split in Hnd as (Hn1 & Hn2 & _ & _).
  split; [exact (migrateFiles_not_about db l1 _ _ _ _ _ Hn1 H1)|].
  pose proof (runMigrations_listing db s w0 raw Hdir) as Hrun.
  rewrite Hsplit, (migrateFiles_at db l1 l2 F _ s1 t1 H1) in Hrun.
  rewrite (migrateFile_pending db F s1 w r Hc Hq Hr), Hread, Hexec in Hrun.
  destruct xerr as [e|]; [exact Hrun|].
  rewrite Hnow, Hins in Hrun.
  destruct ierr as [e|]; [exact Hrun|].
  destruct (migrateFiles db l2 _) as [[s3 t2] o] eqn:H2.
  exists s3, t2, o. split; [reflexivity|]. split; [exact Hrun|].
  exact (migrateFiles_not_about db l2 _ _ _ _ _ Hn2 H2).
Qed.

(** C2. A migration file [F] for which the ledger lookup finds a row (the
    scan yields 1) is skipped: its turn consists of the lookup alone, the
    run goes on with the next file, and nothing else in the run is a read,
    an insert or a notice for [F]; no statement is executed in its turn. *)
Theorem runMigrations_skips_recorded
    (db : Conn) (s s1 : State E) (w0 w : E) (raw l1 l2 : list FileInfo)
    (F : FileInfo) (t1 : list event) :
  ext_readdir migrationDir (world s) = (w0, Ok raw) ->
  NoDup (Name <$> raw) ->
  sort_by_name raw = l1 ++ F :: l2 ->
  candidate F = true ->
  migrateFiles db l1 (mkState (environ s) w0) = (s1, t1, Ret None) ->
  ext_QueryRowUint8 db (sqlExists (Name F)) (world s1) = (w, Ok 1) ->
  migrateFile db F s1 =
    (mkState (environ s1) w, [EvQueryRow (sqlExists (Name F))], Ret Continue) /\
  exists s' t2 o,
    migrateFiles db l2 (mkState (environ s1) w) = (s', t2, o) /\
    runMigrations db s =
      (s', EvReadDir migrationDir :: t1 ++ EvQueryRow (sqlExists (Name F)) :: t2, o) /\
    Forall (fun ev => ¬ about (Name F) ev) (t1 ++ t2).
Proof.
  intros Hdir Hnd Hsplit Hc H1 Hq.
  apply sort_by_name_NoDup in Hnd. rewrite Hsplit in Hnd.
  apply NoDup_names_split in Hnd as (Hn1 & Hn2 & _ & _).
  pose proof (migrateFile_recorded db F s1 w Hc Hq) as HF.
  split; [exact HF|].
  destruct (migrateFiles db l2 (mkState (environ s1) w)) as [[s' t2] o] eqn:H2.
  exists s', t2, o. split; [reflexivity|]. split.
  - rewrite (runMigrations_listing db s w0 raw Hdir), Hsplit.
    rewrite (migrateFiles_at db l1 l2 F _ s1 t1 H1), HF, H2. reflexivity.
  - apply Forall_app. split.
    + exact (migrateFiles_not_about db l1 _ _ _ _ _ Hn1 H1).
    + exact (migrateFiles_not_about db l2 _ _ _ _ _ Hn2 H2).
Qed.

(** The turn of a regular [*.sql] file: the first [k >= 1] of its five
    events; one or five when the loop goes on, one to four when it returns. *)
Lemma migrateFile_turn (db : Conn) (file : FileInfo) (s s' : State E) t o :
  candidate file = true ->
  migrateFile db file s = (s', t, o) ->
  exists content now k,
    t = take k (turnEvents (Name file) content now) /\
    ((o = Ret Continue /\ (k = 1 \/ k = 5)%nat) \/
     (exists e, o = Ret (Return e) /\ (1 <= k <= 4)%nat)).
Proof.
  intros Hc.
  destruct (ext_QueryRowUint8 db (sqlExists (Name file)) (world s))
    as [w r] eqn:Hl.
  assert (Hcases : noRecord r \/ r = Ok 1 \/
                   exists e, r = Err e /\ is_ErrNoRows e = false).
  { destruct r as [v|e]; simpl.
    - destruct (decide (v = 1)); subst; auto.
    - destruct (is_ErrNoRows e) eqn:He; eauto. }
  destruct Hcases as [Hr | [-> | (e & -> & He)]].
  - rewrite (migrateFile_pending db file s w r Hc Hl Hr).
    destruct (ext_ReadFile _ w) as [w2 [content|e]].
    + destruct (ext_Exec db content w2) as [w3 [e|]].
      { intros [= <- <- <-]. exists content, 0, 3%nat.
        split; [reflexivity|]. right. exists e. split; [reflexivity|lia]. }
      destruct (ext_NowUnix w3) as [w4 now].
      destruct (ext_AsyncInsert db _ false w4) as [w5 [e|]];
        intros [= <- <- <-].
      { exists content, now, 4%nat.
        split; [reflexivity|]. right. exists e. split; [reflexivity|lia]. }
      exists content, now, 5%nat. split; [reflexivity|]. left. auto.
    + intros [= <- <- <-]. exists "", 0, 2%nat.
      split; [reflexivity|]. right. exists e. split; [reflexivity|lia].
  - rewrite (migrateFile_recorded db file s w Hc Hl). intros [= <- <- <-].
    exists "", 0, 1%nat. split; [reflexivity|]. left. auto.
  - rewrite (migrateFile_unknown db file s w e Hc Hl He).
    intros [= <- <- <-]. exists "", 0, 1%nat.
    split; [reflexivity|]. right. exists e. split; [reflexivity|lia].
Qed.

(** The trace of the loop, cut into the turns of the files it came to. *)
Lemma migrateFiles_blocks (db : Conn) (files : list FileInfo)
      (s s' : State E) t o :
  migrateFiles db files s = (s', t, o) ->
  exists done rest blocks,
    List.filter candidate files = done ++ rest /\
    Forall2 turnOf done blocks /\
    t = concat blocks /\
    ((o = Ret None /\ rest = [] /\ Forall complete blocks) \/
     (exists e blocks0 last,
        o = Ret (Some e) /\ blocks = blocks0 ++ [last] /\
        Forall complete blocks0)).
Proof.
  revert s s' t o. induction files as [|file files IH]; intros s s' t o.
  - simpl. unfold ret. intros [= <- <- <-]. exists [], [], [].
    split; [reflexivity|]. split; [constructor|]. split; [reflexivity|].
    left. repeat split; constructor.
  - rewrite migrateFiles_cons. simpl.
    destruct (candidate file) eqn:Hc.
    + destruct (migrateFile db file s) as [[s1 t1] o1] eqn:Hf.
      destruct (migrateFile_turn db file s s1 t1 o1 Hc Hf)
        as (content & now & k & Ht1 & Ho1).
      assert (Hturn : (1 <= k)%nat -> turnOf file t1).
      { intros Hk. exists content, now, k. auto. }
      destruct Ho1 as [[-> Hk] | (e & -> & Hk)].
      * assert (Hcomp : complete t1).
        { subst t1. destruct Hk as [-> | ->]; [left|right]; reflexivity. }
        destruct (migrateFiles db files s1) as [[s2 t2] o2] eqn:Hr.
        destruct (IH _ _ _ _ Hr)
          as (done & rest & blocks & Hfil & Hall & -> & Hend).
        intros [= <- <- <-].
        exists (file :: done), rest, (t1 :: blocks).
        split; [now rewrite Hfil|].
        split; [constructor; [apply Hturn; lia|exact Hall]|].
        split; [reflexivity|].
        destruct Hend as [(-> & -> & Hb) | (e & blocks0 & last & -> & -> & Hb)].
        { left. repeat split; auto. }
        right. exists e, (t1 :: blocks0), last. repeat split; auto.
      * intros [= <- <- <-].
        exists [file], (List.filter candidate files), [t1].
        split; [reflexivity|].
        split; [constructor; [apply Hturn; lia|constructor]|].
        split; [simpl; now rewrite app_nil_r|].
        right. exists e, [], t1. repeat split; auto.
    + rewrite (migrateFile_skip db file s Hc).
      destruct (migrateFiles db files s) as [[s2 t2] o2] eqn:Hr.
      destruct (IH _ _ _ _ Hr) as (done & rest & blocks & Hfil & Hall & -> & Hend).
      intros [= <- <- <-]. exists done, rest, blocks. auto.
Qed.

(** C3. [runMigrations] takes the regular [*.sql] files of the directory in
    byte-wise lexicographic order of their names, whatever order the
    directory was read in, and one at a time.  The listing it walks is the
    sorted one; the files it came to are a first part of it, all of it when
    the run returns [nil]; the trace after the reading of the directory is
    the turns of these files one after the other, in that order; each turn
    begins with the lookup for its file; and every turn but the last of a
    run that ends in an error is complete, the lookup alone or lookup, read,
    execution, insert and notice, before the turn of the next file
    begins. *)
Theorem runMigrations_in_name_order
    (db : Conn) (s s' : State E) (w0 : E) (raw : list FileInfo)
    (tr : list event) (o : outcome (option error)) :
  ext_readdir migrationDir (world s) = (w0, Ok raw) ->
  runMigrations db s = (s', tr, o) ->
  exists files done rest blocks,
    files ≡ₚ raw /\
    StronglySorted name_le files /\
    List.filter candidate files = done ++ rest /\
    Forall2 turnOf done blocks /\
    tr = EvReadDir "internal/logme/migrations/" :: concat blocks /\
    ((o = Ret None /\ rest = [] /\ Forall complete blocks) \/
     (exists e blocks0 last,
        o = Ret (Some e) /\ blocks = blocks0 ++ [last] /\
        Forall complete blocks0)).
Proof.
  intros Hdir. rewrite (runMigrations_listing db s w0 raw Hdir).
  destruct (migrateFiles db (sort_by_name raw) _) as [[s1 t1] o1] eqn:Hrun.
  intros [= <- <- <-].
  destruct (migrateFiles_blocks db _ _ _ _ _ Hrun)
    as (done & rest & blocks & Hfil & Hall & -> & Hend).
  exists (sort_by_name raw), done, rest, blocks.
  split; [apply sort_by_name_perm|].
  split; [apply sort_by_name_sorted|].
  repeat split; auto.
Qed.

(** C4. When the store refuses the content of a migration file [F], the
    run returns that error at once: the refused [EvExec] is the last event,
    no insert for [F] is in the trace, and no event of the trace is about a
    file that comes after [F] in the listing. *)
Theorem runMigrations_halts_on_failed_execution
    (db : Conn) (s s1 : State E) (w0 w w2 w3 : E) (raw l1 l2 : list FileInfo)
    (F : FileInfo) (t1 : list event) (r : res Z) (content : string)
    (e : error) :
  ext_readdir migrationDir (world s) = (w0, Ok raw) ->
  NoDup (Name <$> raw) ->
  sort_by_name raw = l1 ++ F :: l2 ->
  candidate F = true ->
  migrateFiles db l1 (mkState (environ s) w0) = (s1, t1, Ret None) ->
  ext_QueryRowUint8 db (sqlExists (Name F)) (world s1) = (w, r) ->
  noRecord r ->
  ext_ReadFile (migrationDir +:+ Name F) w = (w2, Ok content) ->
  ext_Exec db content w2 = (w3, Some e) ->
  let tr := EvReadDir migrationDir :: t1 ++
            [ EvQueryRow (sqlExists (Name F));
              EvReadFile (migrationDir +:+ Name F);
              EvExec content ] in
  runMigrations db s = (mkState (environ s1) w3, tr, Ret (Some e)) /\
  (forall now wait, EvAsyncInsert (sqlInsert (Name F) now) wait ∉ tr) /\
  (forall f, f ∈ l2 -> Forall (fun ev => ¬ about (Name f) ev) tr).
Proof.
  intros Hdir Hnd Hsplit Hc H1 Hq Hr Hread Hexec tr.
  apply sort_by_name_NoDup in Hnd. rewrite Hsplit in Hnd.
  apply NoDup_names_split in Hnd as (Hn1 & Hn2 & Hl2 & Hl2F).
  pose proof (migrateFiles_not_about db l1 _ _ _ _ _ Hn1 H1) as HnotF.
  split; [|split].
  - rewrite (runMigrations_listing db s w0 raw Hdir), Hsplit.
    rewrite (migrateFiles_at db l1 l2 F _ s1 t1 H1).
    rewrite (migrateFile_pending db F s1 w r Hc Hq Hr), Hread, Hexec.
    reflexivity.
  - intros now wait Hin. subst tr.
    apply elem_of_cons in Hin as [Hin|Hin]; [discriminate|].
    apply elem_of_app in Hin as [Hin|Hin].
    + rewrite Forall_forall in HnotF. apply (HnotF _ Hin). simpl. eauto.
    + repeat (apply elem_of_cons in Hin as [Hin|Hin]; [discriminate|]).
      now apply not_elem_of_nil in Hin.
  - intros f Hf. subst tr. constructor; [simpl; tauto|].
    apply Forall_app. split.
    + exact (migrateFiles_not_about db l1 _ _ _ _ _ (Hl2 f Hf) H1).
    + repeat constructor; simpl; try tauto.
      * intros Heq%sqlExists_inj. exact (Hl2F f Hf (eq_sym Heq)).
      * intros Heq%migrationPath_inj. exact (Hl2F f Hf (eq_sym Heq)).
Qed.

(** C9. A directory entry that is a directory, or whose name does not end
    in [.sql], has an empty turn whatever its name is: no lookup, no read,
    no execution, no insert, the world as it was; and the run over a listing
    is the run over that listing without the entry. *)
Theorem runMigrations_ignores_other_entries
    (db : Conn) (file : FileInfo) (l1 l2 : list FileInfo) (s : State E) :
  IsDir file = true \/ HasSuffix (Name file) ".sql" = false ->
  migrateFile db file s = (s, [], Ret Continue) /\
  migrateFiles db (l1 ++ file :: l2) s = migrateFiles db (l1 ++ l2) s.
Proof.
  intros Hother.
  assert (Hc : candidate file = false).
  { unfold candidate. destruct Hother as [-> | ->]; [reflexivity|].
    apply andb_false_r. }
  split; [exact (migrateFile_skip db file s Hc)|].
  rewrite !migrateFiles_app. unfold bind.
  destruct (migrateFiles db l1 s) as [[s1 t1] [[e|]|msg|code]]; try reflexivity.
  rewrite migrateFiles_cons, (migrateFile_skip db file s1 Hc).
  destruct (migrateFiles db l2 s1) as [[s2 t2] o]. reflexivity.
Qed.

End Run.

(** C1 as it is worded fails where the run does not reach the file.  The
    store refuses the content of [001_init.sql]; [002_add_index.sql] is in
    the directory and has no row in the ledger, and one invocation of
    [migrate] neither executes its content nor issues an insert for it. *)
Lemma migrate_pending_not_reached_counterexample :
  let w := Sim.with_rejected ["CREATE TABLE logs (ts DateTime)"] Sim.fresh in
  let tr := (migrate false (Sim.start w)).1.2 in
  ¬ (Sim.add_index_sql ∈ Sim.dir w ->
     candidate Sim.add_index_sql = true ->
     (ext_QueryRowUint8 Sim.db (sqlExists "002_add_index.sql") w).2
       = Err ErrNoRows ->
     count (fun ev =>
              bool_decide (ev = EvExec "ALTER TABLE logs ADD INDEX i (ts)"))
           tr = 1%nat /\
     count (fun ev =>
              bool_decide
                (ev = EvAsyncInsert
                        "INSERT INTO migrations (name, dt) VALUES ('002_add_index.sql', 1700000000)"
                        false))
           tr = 1%nat).
Proof.
  intros w tr Hclaim.
  destruct Hclaim as [Hexec _].
  - vm_compute. right. left.
  - reflexivity.
  - reflexivity.
  - vm_compute in Hexec. discriminate Hexec.
Qed.

(** ** Connection parameters *)

Section Connection.

Context {E : Type} `{External E}.

Lemma Getenv_empty (env : gmap string string) (key : string) :
  Getenv env key = "" <-> unsetOrEmpty env key.
Proof.
  unfold Getenv, unsetOrEmpty. destruct (env !! key) as [v|]; simpl.
  - split; [intros ->; auto|intros [Hn|[= ->]]; [discriminate|reflexivity]].
  - split; auto.
Qed.

Lemma Getenv_unset (env : gmap string string) (key : string) :
  env !! key = None -> Getenv env key = "".
Proof. unfold Getenv. now intros ->. Qed.

Lemma getDbConn_unfold (isTest : bool) (s : State E) :
  getDbConn isTest s =
    if String.eqb (Getenv (environ s) "DB_ADDR") "" &&
       String.eqb (Getenv (environ s) "DB_LOCAL_ADDR") ""
    then (s, [], Ret (None, Some configError))
    else
      match ext_Open (dbOptions isTest (environ s)) (world s) with
      | (w, None) =>
          (mkState (environ s) w, [EvOpen (dbOptions isTest (environ s))],
           Ret (Some (mkConn (dbOptions isTest (environ s))), None))
      | (w, Some e) =>
          (mkState (environ s) w, [EvOpen (dbOptions isTest (environ s))],
           Ret (None, Some e))
      end.
Proof.
  unfold getDbConn, dbOptions, clickhouse_Open, os_Getenv, bind, call, ret.
  simpl.
  destruct (String.eqb_spec (Getenv (environ s) "DB_ADDR") "") as [Ha|Ha];
    simpl.
  - destruct (String.eqb_spec (Getenv (environ s) "DB_LOCAL_ADDR") "")
      as [Hl|Hl]; simpl; [reflexivity|].
    assert (Hu : (if negb (String.eqb (Getenv (environ s) "DB_USER") "")
                  then Getenv (environ s) "DB_USER" else "")
                 = Getenv (environ s) "DB_USER").
    { destruct (String.eqb_spec (Getenv (environ s) "DB_USER") "") as [->|];
        reflexivity. }
    assert (Hp : (if negb (String.eqb (Getenv (environ s) "DB_PASS") "")
                  then Getenv (environ s) "DB_PASS" else "")
                 = Getenv (environ s) "DB_PASS").
    { destruct (String.eqb_spec (Getenv (environ s) "DB_PASS") "") as [->|];
        reflexivity. }
    rewrite Hu, Hp.
    destruct (ext_Open _ (world s)) as [w [e|]]; reflexivity.
  - apply String.eqb_neq in Ha as Ha'. rewrite Ha'. simpl.
    assert (Hu : (if negb (String.eqb (Getenv (environ s) "DB_USER") "")
                  then Getenv (environ s) "DB_USER" else "")
                 = Getenv (environ s) "DB_USER").
    { destruct (String.eqb_spec (Getenv (environ s) "DB_USER") "") as [->|];
        reflexivity. }
    assert (Hp : (if negb (String.eqb (Getenv (environ s) "DB_PASS") "")
                  then Getenv (environ s) "DB_PASS" else "")
                 = Getenv (environ s) "DB_PASS").
    { destruct (String.eqb_spec (Getenv (environ s) "DB_PASS") "") as [->|];
        reflexivity. }
    rewrite Hu, Hp.
    destruct (ext_Open _ (world s)) as [w [e|]]; reflexivity.
Qed.

Lemma nonEmpty_None (env : gmap string string) (key : string) :
  nonEmpty env key = None <-> unsetOrEmpty env key.
Proof.
  unfold nonEmpty, unsetOrEmpty. destruct (env !! key) as [v|]; [|tauto].
  destruct (String.eqb_spec v "") as [->|Hv]; split; auto; try discriminate.
  intros [Hn|[= Hn]]; [discriminate|contradiction].
Qed.

Lemma nonEmpty_Getenv (env : gmap string string) (key : string) :
  nonEmpty env key =
  if String.eqb (Getenv env key) "" then None else Some (Getenv env key).
Proof.
  unfold nonEmpty, Getenv. destruct (env !! key) as [v|]; reflexivity.
Qed.

(** C6, as the code has it.  [getDbConn] takes the address from [DB_ADDR]
    and, when that is unset or empty, from [DB_LOCAL_ADDR]; it returns the
    configuration error, without any call to the outside, exactly when both
    are unset or empty; otherwise it opens one connection, to that address
    and to the database [DB_NAME] (or [logme] when that is unset or empty)
    with [_test] appended in test mode. *)
Theorem getDbConn_resolution (isTest : bool) (s : State E) :
  (resolveAddr (environ s) = None <->
   unsetOrEmpty (environ s) "DB_ADDR" /\
   unsetOrEmpty (environ s) "DB_LOCAL_ADDR") /\
  match resolveAddr (environ s) with
  | None => getDbConn isTest s = (s, [], Ret (None, Some configError))
  | Some addr =>
      exists o,
        Addr o = [addr] /\
        Database (OptAuth o) = resolveDatabase isTest (environ s) /\
        getDbConn isTest s =
          match ext_Open o (world s) with
          | (w, None) =>
              (mkState (environ s) w, [EvOpen o], Ret (Some (mkConn o), None))
          | (w, Some e) =>
              (mkState (environ s) w, [EvOpen o], Ret (None, Some e))
          end
  end.
Proof.
  split.
  - unfold resolveAddr. rewrite <- !nonEmpty_None.
    destruct (nonEmpty (environ s) "DB_ADDR"); split;
      [discriminate|intros [[=] _]|auto|tauto].
  - rewrite getDbConn_unfold. unfold resolveAddr, resolveDatabase, dbOptions.
    rewrite !nonEmpty_Getenv.
    destruct (String.eqb (Getenv (environ s) "DB_ADDR") ""); simpl.
    + destruct (String.eqb (Getenv (environ s) "DB_LOCAL_ADDR") ""); simpl;
        [reflexivity|].
      eexists. split; [|split; [|reflexivity]]; simpl; [reflexivity|].
      destruct (String.eqb (Getenv (environ s) "DB_NAME") ""); reflexivity.
    + eexists. split; [|split; [|reflexivity]]; simpl; [reflexivity|].
      destruct (String.eqb (Getenv (environ s) "DB_NAME") ""); reflexivity.
Qed.

End Connection.

(** C6 as it is worded fails where a variable is present but empty: with
    [DB_ADDR] set to the empty string and [DB_LOCAL_ADDR] unset, not both
    are unset, and [getDbConn] returns the configuration error all the
    same. *)
Lemma getDbConn_empty_DB_ADDR_counterexample :
  let s := mkState {[ "DB_ADDR" := "" ]} Sim.fresh in
  ¬ (getDbConn false s = (s, [], Ret (None, Some configError)) <->
     environ s !! "DB_ADDR" = None /\ environ s !! "DB_LOCAL_ADDR" = None).
Proof.
  intros s [Hto _].
  assert (Hrun : getDbConn false s = (s, [], Ret (None, Some configError)))
    by reflexivity.
  destruct (Hto Hrun) as [Hset _]. discriminate Hset.
Qed.

(** ** The ledger table *)

Section Ledger.

Context {E : Type} `{External E}.

Lemma createMigrationsTable_present (db : Conn) (s : State E) w r :
  ext_QueryRowString db sqlShowTables (world s) = (w, r) ->
  tablePresent r = true ->
  createMigrationsTable db s =
    (mkState (environ s) w, [EvQueryRow sqlShowTables], Ret None).
Proof.
  intros Hq Hr.
  unfold createMigrationsTable, QueryRow_Scan_string, unknownError, bind, call,
    ret.
  rewrite Hq. destruct r as [v|e]; [|discriminate]. simpl in *.
  rewrite Hr. reflexivity.
Qed.

Lemma createMigrationsTable_absent (db : Conn) (s : State E) w r :
  ext_QueryRowString db sqlShowTables (world s) = (w, r) ->
  tableAbsent r = true ->
  createMigrationsTable db s =
    match ext_Exec db sqlCreateTable w with
    | (w', err) =>
        (mkState (environ s) w',
         [EvQueryRow sqlShowTables; EvExec sqlCreateTable], Ret err)
    end.
Proof.
  intros Hq Hr.
  unfold createMigrationsTable, QueryRow_Scan_string, unknownError,
    errors_Is_ErrNoRows, db_Exec, bind, call, ret.
  rewrite Hq. destruct r as [v|e]; simpl in *; rewrite Hr; simpl;
    destruct (ext_Exec db sqlCreateTable w) as [w' [e'|]]; reflexivity.
Qed.

Lemma createMigrationsTable_panics (db : Conn) (s : State E) w e :
  ext_QueryRowString db sqlShowTables (world s) = (w, Err e) ->
  is_ErrNoRows e = false ->
  createMigrationsTable db s =
    (mkState (environ s) w, [EvQueryRow sqlShowTables], Panicked (Error e)).
Proof.
  intros Hq He.
  unfold createMigrationsTable, QueryRow_Scan_string, unknownError,
    errors_Is_ErrNoRows, panic, bind, call, ret.
  rewrite Hq. simpl. rewrite He. reflexivity.
Qed.

(** [migrate] once the connection is there. *)
Lemma migrate_connected (isTest : bool) (s s0 : State E) t0 db :
  getDbConn isTest s = (s0, t0, Ret (Some db, None)) ->
  migrate isTest s =
    match createMigrationsTable db s0 with
    | (s1, t1, Ret None) =>
        match runMigrations db s1 with
        | (s2, t2, o) => (s2, t0 ++ t1 ++ t2, o)
        end
    | (s1, t1, Ret (Some e)) => (s1, t0 ++ t1, Ret (Some e))
    | (s1, t1, Panicked msg) => (s1, t0 ++ t1, Panicked msg)
    | (s1, t1, Exited code) => (s1, t0 ++ t1, Exited code)
    end.
Proof.
  intros Hc. unfold migrate, bind. rewrite Hc.
  destruct (createMigrationsTable db s0) as [[s1 t1] [[e|]|msg|code]];
    try reflexivity.
  - unfold ret. rewrite app_nil_r. reflexivity.
  - destruct (runMigrations db s1) as [[s2 t2] o]. reflexivity.
Qed.

(** A connection that was obtained was obtained by one [EvOpen]. *)
Lemma getDbConn_connected (isTest : bool) (s s0 : State E) t0 db :
  getDbConn isTest s = (s0, t0, Ret (Some db, None)) ->
  exists o, t0 = [EvOpen o] /\ environ s0 = environ s.
Proof.
  rewrite getDbConn_unfold.
  destruct (_ && _); [discriminate|].
  destruct (ext_Open _ (world s)) as [w [e|]]; [discriminate|].
  intros [= <- <- <-]. eauto.
Qed.

(** C7, as the code has it.  In every invocation in which [migrate] obtains
    its connection, the first thing it asks the store is whether the table
    [migrations] exists.  When
    the answer names a table nothing is created; when there is no row the
    table is created by one statement, with the columns [name String] and
    [dt DateTime] and [ORDER BY (name, dt)].  Only then does
    [runMigrations] start, so every lookup for a file comes after the probe
    and after the creation. *)
Theorem migrate_ensures_table_first
    (isTest : bool) (s s0 : State E) (t0 : list event) (db : Conn)
    (w w' : E) (r : res string) (err : option error) :
  getDbConn isTest s = (s0, t0, Ret (Some db, None)) ->
  ext_QueryRowString db sqlShowTables (world s0) = (w, r) ->
  ext_Exec db sqlCreateTable w = (w', err) ->
  (forall q, EvQueryRow q ∉ t0) /\
  (tablePresent r = true ->
     migrate isTest s =
       match runMigrations db (mkState (environ s0) w) with
       | (s2, t2, o) => (s2, t0 ++ EvQueryRow sqlShowTables :: t2, o)
       end) /\
  (tableAbsent r = true ->
     migrate isTest s =
       match err with
       | Some e =>
           (mkState (environ s0) w',
            t0 ++ [EvQueryRow sqlShowTables; EvExec sqlCreateTable],
            Ret (Some e))
       | None =>
           match runMigrations db (mkState (environ s0) w') with
           | (s2, t2, o) =>
               (s2,
                t0 ++ EvQueryRow sqlShowTables :: EvExec sqlCreateTable :: t2,
                o)
           end
       end) /\
  mentions sqlCreateTable "CREATE TABLE IF NOT EXISTS migrations" = true /\
  mentions sqlCreateTable "name       String," = true /\
  mentions sqlCreateTable "dt         DateTime" = true /\
  mentions sqlCreateTable "ORDER BY (name, dt)" = true /\
  sqlShowTables = "SHOW TABLES LIKE 'migrations'".
Proof.
  intros Hc Hq Hx.
  destruct (getDbConn_connected _ _ _ _ _ Hc) as (o & -> & _).
  split; [|split; [|split]].
  - intros q Hin. apply list_elem_of_singleton in Hin. discriminate.
  - intros Hr. rewrite (migrate_connected _ _ _ _ _ Hc).
    rewrite (createMigrationsTable_present db s0 w r Hq Hr).
    destruct (runMigrations db _) as [[s2 t2] o2]. reflexivity.
  - intros Hr. rewrite (migrate_connected _ _ _ _ _ Hc).
    rewrite (createMigrationsTable_absent db s0 w r Hq Hr), Hx.
    destruct err as [e|]; [reflexivity|].
    destruct (runMigrations db _) as [[s2 t2] o2]. reflexivity.
  - repeat split; vm_compute; reflexivity.
Qed.

End Ledger.

(** C7 as it is worded fails on the names of the columns, and on "every
    invocation".  In a world without the table, the statement that creates
    it has no column [applied_at] and is not ordered by
    [(name, applied_at)]; the time stamp column is [dt].  And an invocation
    that finds no address returns before it has a connection: the existence
    of the table is not checked. *)
Lemma createMigrationsTable_columns_counterexample :
  ¬ (forall stmt,
       EvExec stmt ∈ (createMigrationsTable Sim.db (Sim.start Sim.fresh)).1.2 ->
       mentions stmt "applied_at" = true /\
       mentions stmt "ORDER BY (name, applied_at)" = true) /\
  ¬ (EvQueryRow "SHOW TABLES LIKE 'migrations'"
       ∈ (migrate false (mkState ∅ Sim.fresh)).1.2).
Proof.
  split.
  - intros Hall.
    destruct (Hall sqlCreateTable) as [Hcol _].
    + vm_compute. right. left.
    + vm_compute in Hcol. discriminate Hcol.
  - vm_compute. intros Hin. now apply not_elem_of_nil in Hin.
Qed.

(** ** Lookups: no row, or a failure *)

Section Lookups.

Context {E : Type} `{External E}.

(** C5. Both lookups take "no rows" for an answer and anything else for a
    failure.  (1) A file whose lookup ends in [sql.ErrNoRows] is treated as
    not yet run: its turn goes on to read the file.  (2) Any other error of
    that lookup is returned, and the run ends there with it.  (3) A probe
    for the table that ends in [sql.ErrNoRows] means the table is absent:
    it is created.  (4) Any other error of the probe makes
    [createMigrationsTable] panic with its message, and [migrate] with it,
    before any file is looked at. *)
Theorem lookups_tell_no_rows_from_failure (db : Conn) :
  (forall (F : FileInfo) (s : State E) w e,
     candidate F = true ->
     ext_QueryRowUint8 db (sqlExists (Name F)) (world s) = (w, Err e) ->
     is_ErrNoRows e = true ->
     exists s' t o,
       migrateFile db F s =
         (s', EvQueryRow (sqlExists (Name F)) ::
              EvReadFile (migrationDir +:+ Name F) :: t, o)) /\
  (forall (l1 l2 : list FileInfo) (F : FileInfo) (s s1 : State E) t1 w e,
     candidate F = true ->
     migrateFiles db l1 s = (s1, t1, Ret None) ->
     ext_QueryRowUint8 db (sqlExists (Name F)) (world s1) = (w, Err e) ->
     is_ErrNoRows e = false ->
     migrateFiles db (l1 ++ F :: l2) s =
       (mkState (environ s1) w, t1 ++ [EvQueryRow (sqlExists (Name F))],
        Ret (Some e))) /\
  (forall (s : State E) w e,
     ext_QueryRowString db sqlShowTables (world s) = (w, Err e) ->
     is_ErrNoRows e = true ->
     createMigrationsTable db s =
       match ext_Exec db sqlCreateTable w with
       | (w', err) =>
           (mkState (environ s) w',
            [EvQueryRow sqlShowTables; EvExec sqlCreateTable], Ret err)
       end) /\
  (forall (isTest : bool) (s s0 : State E) t0 w e,
     getDbConn isTest s = (s0, t0, Ret (Some db, None)) ->
     ext_QueryRowString db sqlShowTables (world s0) = (w, Err e) ->
     is_ErrNoRows e = false ->
     createMigrationsTable db s0 =
       (mkState (environ s0) w, [EvQueryRow sqlShowTables],
        Panicked (Error e)) /\
     migrate isTest s =
       (mkState (environ s0) w, t0 ++ [EvQueryRow sqlShowTables],
        Panicked (Error e))).
Proof.
  split; [|split; [|split]].
  - intros F s w e Hc Hq He.
    rewrite (migrateFile_pending db F s w (Err e) Hc Hq He).
    destruct (ext_ReadFile _ w) as [w2 [content|e']]; [|eauto].
    destruct (ext_Exec db content w2) as [w3 [e'|]]; [eauto|].
    destruct (ext_NowUnix w3) as [w4 now].
    destruct (ext_AsyncInsert db _ false w4) as [w5 [e'|]]; eauto.
  - intros l1 l2 F s s1 t1 w e Hc H1 Hq He.
    rewrite (migrateFiles_at db l1 l2 F s s1 t1 H1).
    rewrite (migrateFile_unknown db F s1 w e Hc Hq He). reflexivity.
  - intros s w e Hq He.
    exact (createMigrationsTable_absent db s w (Err e) Hq He).
  - intros isTest s s0 t0 w e Hc Hq He.
    pose proof (createMigrationsTable_panics db s0 w e Hq He) as Hp.
    split; [exact Hp|].
    rewrite (migrate_connected _ _ _ _ _ Hc), Hp. reflexivity.
Qed.

End Lookups.

(** ** The shell commands and [main] *)

Section Shell.

Context {E : Type} `{External E}.

(** [up], [down] and [list] hand the error of their command on, and print
    its output only when there is none. *)
Lemma up_propagates (s : State E) w out err :
  ext_Output "/bin/sh" ["-c"; "docker-compose up"; "-d"] (world s)
    = (w, (out, err)) ->
  up s =
    (mkState (environ s) w,
     EvCommand "/bin/sh" ["-c"; "docker-compose up"; "-d"] ::
       match err with None => [EvStdout (out +:+ nl)] | Some _ => [] end,
     Ret err).
Proof.
  intros Hc. unfold up, exec_Command_Output, fmt_Printf_s_nl, bind, call, emit,
    ret. rewrite Hc. destruct err; reflexivity.
Qed.

Lemma down_propagates (s : State E) w out err :
  ext_Output "/bin/sh" ["-c"; "docker-compose down"] (world s)
    = (w, (out, err)) ->
  down s =
    (mkState (environ s) w,
     EvCommand "/bin/sh" ["-c"; "docker-compose down"] ::
       match err with None => [EvStdout (out +:+ nl)] | Some _ => [] end,
     Ret err).
Proof.
  intros Hc. unfold down, exec_Command_Output, fmt_Printf_s_nl, bind, call,
    emit, ret. rewrite Hc. destruct err; reflexivity.
Qed.

Lemma list_propagates (s : State E) w out err :
  ext_Output "/bin/sh" ["-c"; dockerPs] (world s) = (w, (out, err)) ->
  list_ s =
    (mkState (environ s) w,
     EvCommand "/bin/sh" ["-c"; dockerPs] ::
       match err with None => [EvStdout (out +:+ nl)] | Some _ => [] end,
     Ret err).
Proof.
  intros Hc. unfold list_, exec_Command_Output, fmt_Printf_s_nl, bind, call,
    emit, ret. rewrite Hc. destruct err; reflexivity.
Qed.

(** C8, where the code departs from it.  [test] prints whatever its command
    wrote and returns [nil] whether the command failed or not: the error of
    the command is lost, and so is the exit status. *)
Theorem test_drops_command_error (s : State E) (w : E) (out : string)
    (e : error) (prog : string) (more : list string) :
  ext_Output "/bin/sh" goTest (world s) = (w, (out, Some e)) ->
  test s =
    (mkState (environ s) w,
     [EvCommand "/bin/sh" goTest; EvStdout (out +:+ nl)],
     Ret None) /\
  app_Run (prog :: "test" :: more) s = test s /\
  app_Run (prog :: "t" :: more) s = test s.
Proof.
  intros Hc. split; [|split; reflexivity].
  unfold test, exec_Command_Output, fmt_Printf_s_nl, bind, call, emit, ret.
  fold goTest. rewrite Hc. reflexivity.
Qed.

(** C10. Whatever the arguments and whatever the environment of the process
    holds, the first thing [main] does is read [.env].  When that file
    cannot be read, or cannot be parsed, [main] writes its message and exits
    with status 1, and nothing else has happened.  Otherwise the variables
    of the file that the process lacks are added, and only then is the
    command chosen and run. *)
Theorem main_loads_dotenv_first (args : list string) (s : State E) (w : E)
    (r : res string) :
  ext_ReadFile ".env" (world s) = (w, r) ->
  let fatal :=
    (mkState (environ s) w,
     [EvReadFile ".env"; EvStderr "Error loading .env file"],
     @Exited unit 1) in
  match r with
  | Err _ => main args s = fatal
  | Ok content =>
      match ext_ParseDotenv content with
      | Err _ => main args s = fatal
      | Ok envMap =>
          main args s =
            match app_Run args (mkState (environ s ∪ envMap) w) with
            | (s', t, Ret None) => (s', EvReadFile ".env" :: t, Ret tt)
            | (s', t, Ret (Some e)) =>
                (s', EvReadFile ".env" :: t ++ [EvStderr (Error e)], Exited 1)
            | (s', t, Panicked msg) =>
                (s', EvReadFile ".env" :: t, Panicked msg)
            | (s', t, Exited code) =>
                (s', EvReadFile ".env" :: t, Exited code)
            end
      end
  end.
Proof.
  intros Hread fatal. subst fatal.
  unfold main, godotenv_Load, os_ReadFile, log_Fatal, bind, call, ret.
  rewrite Hread. destruct r as [content|e]; simpl; [|reflexivity].
  destruct (ext_ParseDotenv content) as [envMap|e]; simpl; [|reflexivity].
  destruct (app_Run args _) as [[s' t] [[e|]|msg|code]]; simpl;
    rewrite ?app_nil_r; reflexivity.
Qed.

End Shell.

(** ** The theorems at work in the simulated world *)

Module Witness.

Import Sim.

Lemma fresh_names_NoDup : NoDup (Name <$> dir fresh).
Proof. apply (bool_decide_unpack _). vm_compute. exact I. Defined.

Lemma fresh_sorted :
  sort_by_name (dir fresh) = [init_sql] ++ add_index_sql :: [notes_txt; old_sql_dir].
Proof. vm_compute. reflexivity. Defined.

(** A fresh checkout: [002_add_index.sql] has no row in the ledger and is
    applied once, after [001_init.sql]; the insert names the file and the
    time. *)
Lemma runMigrations_applies_pending_once_witness :
  let s := start fresh in
  let before := migrateFiles db [init_sql] s in
  let t1 := before.1.2 in
  let w5 := (ext_AsyncInsert db (sqlInsert "002_add_index.sql" 1700000000)
               false (world before.1.1)).1 in
  Forall (fun ev => ¬ about "002_add_index.sql" ev) t1 /\
  exists s' t2 o,
    migrateFiles db [notes_txt; old_sql_dir] (mkState (environ before.1.1) w5)
      = (s', t2, o) /\
    runMigrations db s =
      (s',
       EvReadDir "internal/logme/migrations/" :: t1 ++
         [ EvQueryRow
             "SELECT 1 FROM migrations WHERE name = '002_add_index.sql'";
           EvReadFile "internal/logme/migrations/002_add_index.sql";
           EvExec "ALTER TABLE logs ADD INDEX i (ts)";
           EvAsyncInsert
             "INSERT INTO migrations (name, dt) VALUES ('002_add_index.sql', 1700000000)"
             false;
           EvStdout ("Successfully migrated: 002_add_index.sql" +:+ nl) ] ++ t2,
       o) /\
    Forall (fun ev => ¬ about "002_add_index.sql" ev) t2.
Proof.
  intros s before t1 w5.
  refine (runMigrations_applies_pending_once db s before.1.1 (world s)
            (world before.1.1) (world before.1.1) (world before.1.1)
            (world before.1.1) w5 (dir fresh) [init_sql]
            [notes_txt; old_sql_dir] add_index_sql t1 (Err ErrNoRows)
            "ALTER TABLE logs ADD INDEX i (ts)" None None 1700000000
            _ _ _ _ _ _ _ _ _ _ _).
  - reflexivity.
  - exact fresh_names_NoDup.
  - exact fresh_sorted.
  - reflexivity.
  - vm_compute. reflexivity.
  - vm_compute. reflexivity.
  - reflexivity.
  - vm_compute. reflexivity.
  - vm_compute. reflexivity.
  - vm_compute. reflexivity.
  - vm_compute. reflexivity.
Defined.

(** With a row for [001_init.sql] in the ledger, its turn is the lookup
    alone. *)
Lemma runMigrations_skips_recorded_witness :
  let s := start (with_recorded ["001_init.sql"] fresh) in
  let w := (ext_QueryRowUint8 db (sqlExists "001_init.sql") (world s)).1 in
  migrateFile db init_sql s =
    (mkState (environ s) w, [EvQueryRow (sqlExists "001_init.sql")],
     Ret Continue) /\
  exists s' t2 o,
    migrateFiles db [add_index_sql; notes_txt; old_sql_dir]
      (mkState (environ s) w) = (s', t2, o) /\
    runMigrations db s =
      (s', EvReadDir migrationDir :: [] ++
           EvQueryRow (sqlExists "001_init.sql") :: t2, o) /\
    Forall (fun ev => ¬ about "001_init.sql" ev) ([] ++ t2).
Proof.
  intros s w.
  apply (runMigrations_skips_recorded db s s (world s) w (dir fresh) []
           [add_index_sql; notes_txt; old_sql_dir] init_sql []).
  - reflexivity.
  - exact fresh_names_NoDup.
  - exact fresh_sorted.
  - reflexivity.
  - reflexivity.
  - vm_compute. reflexivity.
Defined.

(** The directory lists [002_add_index.sql] before [001_init.sql]; the run
    takes them in the order of their names. *)
Lemma runMigrations_in_name_order_witness :
  let run := runMigrations db (start fresh) in
  exists files done rest blocks,
    files ≡ₚ dir fresh /\
    StronglySorted name_le files /\
    List.filter candidate files = done ++ rest /\
    Forall2 turnOf done blocks /\
    run.1.2 = EvReadDir "internal/logme/migrations/" :: concat blocks /\
    ((run.2 = Ret None /\ rest = [] /\ Forall complete blocks) \/
     (exists e blocks0 last,
        run.2 = Ret (Some e) /\ blocks = blocks0 ++ [last] /\
        Forall complete blocks0)).
Proof.
  intros run.
  refine (runMigrations_in_name_order db (start fresh) run.1.1 fresh
            (dir fresh) run.1.2 run.2 _ _).
  - reflexivity.
  - vm_compute. reflexivity.
Defined.

(** The store refuses the content of [001_init.sql]: the run ends there. *)
Lemma runMigrations_halts_on_failed_execution_witness :
  let bad := "CREATE TABLE logs (ts DateTime)" in
  let s := start (with_rejected [bad] fresh) in
  let tr := EvReadDir migrationDir :: [] ++
            [ EvQueryRow (sqlExists "001_init.sql");
              EvReadFile (migrationDir +:+ "001_init.sql");
              EvExec bad ] in
  runMigrations db s =
    (s, tr, Ret (Some (ErrMsg "code: 62, message: Syntax error"))) /\
  (forall now wait, EvAsyncInsert (sqlInsert "001_init.sql" now) wait ∉ tr) /\
  (forall f, f ∈ [add_index_sql; notes_txt; old_sql_dir] ->
     Forall (fun ev => ¬ about (Name f) ev) tr).
Proof.
  intros bad s tr.
  apply (runMigrations_halts_on_failed_execution db s s (world s) (world s)
           (world s) (world s) (dir fresh) []
           [add_index_sql; notes_txt; old_sql_dir] init_sql []
           (Err ErrNoRows) bad (ErrMsg "code: 62, message: Syntax error")).
  - reflexivity.
  - exact fresh_names_NoDup.
  - exact fresh_sorted.
  - reflexivity.
  - reflexivity.
  - vm_compute. reflexivity.
  - reflexivity.
  - vm_compute. reflexivity.
  - vm_compute. reflexivity.
Defined.

(** [notes.txt] next to [001_init.sql]: no event, and the run is the run
    without it. *)
Lemma runMigrations_ignores_other_entries_witness :
  let s := start fresh in
  migrateFile db notes_txt s = (s, [], Ret Continue) /\
  migrateFiles db ([init_sql] ++ notes_txt :: []) s =
  migrateFiles db ([init_sql] ++ []) s.
Proof.
  intros s.
  apply (runMigrations_ignores_other_entries db notes_txt [init_sql] [] s).
  right. vm_compute. reflexivity.
Defined.

(** A fresh checkout has no ledger table: it is created before the first
    file is looked up.  Once it exists, the probe is all that happens before
    the files. *)
Lemma migrate_ensures_table_first_witness :
  let t0 := [EvOpen (conn_options db)] in
  let created := (ext_Exec db sqlCreateTable fresh).1 in
  let existing := with_recorded [] fresh in
  (forall q, EvQueryRow q ∉ t0) /\
  migrate false (start fresh) =
    (match runMigrations db (start created) with
     | (s2, t2, o) =>
         (s2, t0 ++ EvQueryRow sqlShowTables :: EvExec sqlCreateTable :: t2, o)
     end) /\
  migrate false (start existing) =
    (match runMigrations db (start existing) with
     | (s2, t2, o) => (s2, t0 ++ EvQueryRow sqlShowTables :: t2, o)
     end) /\
  mentions sqlCreateTable "dt         DateTime" = true /\
  mentions sqlCreateTable "ORDER BY (name, dt)" = true /\
  sqlShowTables = "SHOW TABLES LIKE 'migrations'".
Proof.
  intros t0 created existing.
  destruct (migrate_ensures_table_first false (start fresh) (start fresh) t0 db
              fresh created (Err ErrNoRows) None)
    as (Hopen & _ & Habsent & _ & _ & Hdt & Horder & Hprobe);
    [vm_compute; reflexivity|reflexivity|vm_compute; reflexivity|].
  destruct (migrate_ensures_table_first false (start existing) (start existing)
              t0 db existing existing (Ok "migrations") None)
    as (_ & Hpresent & _);
    [vm_compute; reflexivity|reflexivity|vm_compute; reflexivity|].
  split; [exact Hopen|].
  split; [exact (Habsent eq_refl)|].
  split; [exact (Hpresent eq_refl)|].
  split; [exact Hdt|]. split; [exact Horder|exact Hprobe].
Defined.

(** The two lookups, once with no row and once with a connection that
    breaks. *)
Lemma lookups_tell_no_rows_from_failure_witness :
  (exists s' t o,
     migrateFile db init_sql (start fresh) =
       (s', EvQueryRow (sqlExists "001_init.sql") ::
            EvReadFile (migrationDir +:+ "001_init.sql") :: t, o)) /\
  migrateFiles db ([] ++ init_sql :: [add_index_sql])
      (start (with_broken reset fresh)) =
    (start (with_broken reset fresh),
     [] ++ [EvQueryRow (sqlExists "001_init.sql")], Ret (Some reset)) /\
  createMigrationsTable db (start fresh) =
    (match ext_Exec db sqlCreateTable fresh with
     | (w', err) =>
         (mkState env0 w',
          [EvQueryRow sqlShowTables; EvExec sqlCreateTable], Ret err)
     end) /\
  migrate false (start (with_broken reset fresh)) =
    (start (with_broken reset fresh),
     [EvOpen (conn_options db)] ++ [EvQueryRow sqlShowTables],
     Panicked "read: connection reset by peer").
Proof.
  destruct (lookups_tell_no_rows_from_failure (E:=Sim.t) db)
    as (Hnone & Hfail & Habsent & Hpanic).
  split; [|split; [|split]].
  - apply (Hnone init_sql (start fresh) fresh ErrNoRows); reflexivity.
  - apply (Hfail [] [add_index_sql] init_sql _ (start (with_broken reset fresh))
             [] (with_broken reset fresh) reset); reflexivity.
  - apply (Habsent (start fresh) fresh ErrNoRows); reflexivity.
  - apply (Hpanic false (start (with_broken reset fresh))
             (start (with_broken reset fresh)) [EvOpen (conn_options db)]
             (with_broken reset fresh) reset).
    + vm_compute. reflexivity.
    + reflexivity.
    + reflexivity.
Defined.

(** The tests fail inside the container; [test] returns [nil]. *)
Lemma test_drops_command_error_witness :
  let w := with_shell ("FAIL", Some (ErrMsg "exit status 1")) fresh in
  test (start w) =
    (start w, [EvCommand "/bin/sh" goTest; EvStdout ("FAIL" +:+ nl)], Ret None) /\
  app_Run ["logme-cli"; "test"] (start w) = test (start w) /\
  app_Run ["logme-cli"; "t"] (start w) = test (start w).
Proof.
  intros w.
  apply (test_drops_command_error (start w) w "FAIL" (ErrMsg "exit status 1")
           "logme-cli" []).
  reflexivity.
Defined.

(** All of the configuration is in the environment of the process, and
    there is no [.env]: [main] exits before it looks at its arguments. *)
Lemma main_loads_dotenv_first_witness :
  let w := without_file ".env" fresh in
  let env : gmap string string :=
    {[ "DB_ADDR" := "127.0.0.1:9000"; "DB_NAME" := "logme";
       "DB_USER" := "default"; "DB_PASS" := "secret" ]} in
  main ["logme-cli"; "migrate"] (mkState env w) =
    (mkState env w, [EvReadFile ".env"; EvStderr "Error loading .env file"],
     Exited 1).
Proof.
  intros w env.
  apply (main_loads_dotenv_first ["logme-cli"; "migrate"] (mkState env w) w
           (Err (ErrMsg ("open " +:+ ".env" +:+ ": no such file or directory")))).
  vm_compute. reflexivity.
Defined.

End Witness.

(** ** Runs of the whole program *)

Module Examples.

Import Sim.

(** The scenario of the two migrations: listed as [002] then [001], applied
    as [001] then [002], each with its insert before the next begins; the
    text file and the directory leave no trace. *)
Example migrate_fresh_checkout :
  (migrate false (start fresh)).1.2 =
    [ EvOpen (conn_options db);
      EvQueryRow sqlShowTables;
      EvExec sqlCreateTable;
      EvReadDir migrationDir;
      EvQueryRow "SELECT 1 FROM migrations WHERE name = '001_init.sql'";
      EvReadFile "internal/logme/migrations/001_init.sql";
      EvExec "CREATE TABLE logs (ts DateTime)";
      EvAsyncInsert
        "INSERT INTO migrations (name, dt) VALUES ('001_init.sql', 1700000000)"
        false;
      EvStdout ("Successfully migrated: 001_init.sql" +:+ nl);
      EvQueryRow "SELECT 1 FROM migrations WHERE name = '002_add_index.sql'";
      EvReadFile "internal/logme/migrations/002_add_index.sql";
      EvExec "ALTER TABLE logs ADD INDEX i (ts)";
      EvAsyncInsert
        "INSERT INTO migrations (name, dt) VALUES ('002_add_index.sql', 1700000000)"
        false;
      EvStdout ("Successfully migrated: 002_add_index.sql" +:+ nl) ] /\
  (migrate false (start fresh)).2 = Ret None.
Proof. split; vm_compute; reflexivity. Qed.

(** A second run, with both files in the ledger: two lookups and nothing
    else. *)
Example migrate_again :
  let w := with_recorded ["001_init.sql"; "002_add_index.sql"] fresh in
  (migrate false (start w)).1.2 =
    [ EvOpen (conn_options db);
      EvQueryRow sqlShowTables;
      EvReadDir migrationDir;
      EvQueryRow (sqlExists "001_init.sql");
      EvQueryRow (sqlExists "002_add_index.sql") ].
Proof. vm_compute. reflexivity. Qed.

(** [main] takes the address from [.env] when the process has none. *)
Example main_migrate_test_from_dotenv :
  exists t,
    (main ["logme-cli"; "mt"] (mkState ∅ fresh)).1.2 =
      EvReadFile ".env" ::
      EvOpen (mkOptions ["127.0.0.1:9000"] (mkAuth "logme_test" "" "")
                CompressionLZ4 [("max_execution_time", 60)]) :: t /\
    (main ["logme-cli"; "mt"] (mkState ∅ fresh)).2 = Ret tt.
Proof. eexists. split; vm_compute; reflexivity. Qed.

(** [up] fails and the process exits with status 1; [test] fails and the
    process ends as if nothing had happened. *)
Example main_up_and_test_on_failure :
  let w := with_shell ("FAIL", Some (ErrMsg "exit status 1")) fresh in
  (main ["logme-cli"; "up"] (mkState ∅ w)).2 = Exited 1 /\
  (main ["logme-cli"; "test"] (mkState ∅ w)).2 = Ret tt.
Proof. split; vm_compute; reflexivity. Qed.

End Examples.

(** * Further properties of the program *)

(** ** Which entries are migrations *)

Section Suffix.

Lemma append_cons (c : ascii) (a b : string) :
  String c a +:+ b = String c (a +:+ b).
Proof. reflexivity. Qed.

Lemma append_nil (b : string) : "" +:+ b = b.
Proof. reflexivity. Qed.

Lemma substring_all (s : string) :
  String.substring 0 (String.length s) s = s.
Proof. induction s as [|c s IH]; simpl; [reflexivity|]. now rewrite IH. Qed.

Lemma substring_split (n : nat) (s : string) :
  (n <= String.length s)%nat ->
  s = String.substring 0 n s +:+
      String.substring n (String.length s - n) s.
Proof.
  revert n. induction s as [|c s IH]; intros [|n] Hn; simpl in *.
  - reflexivity.
  - lia.
  - now rewrite append_nil, substring_all.
  - rewrite append_cons, <- (IH n) by lia. reflexivity.
Qed.

Lemma substring_after (p suffix : string) :
  String.substring (String.length p) (String.length suffix) (p +:+ suffix)
  = suffix.
Proof.
  induction p as [|c p IH]; [|rewrite append_cons; exact IH].
  rewrite append_nil. apply substring_all.
Qed.

Lemma length_append (a b : string) :
  String.length (a +:+ b) = (String.length a + String.length b)%nat.
Proof.
  induction a as [|c a IH]; [reflexivity|].
  rewrite append_cons. simpl. now rewrite IH.
Qed.

(** [strings.HasSuffix] says what its name says. *)
Lemma HasSuffix_spec (s suffix : string) :
  HasSuffix s suffix = true <-> exists p, s = p +:+ suffix.
Proof.
  unfold HasSuffix. rewrite andb_true_iff, Nat.leb_le, String.eqb_eq. split.
  - intros [Hlen Hsub].
    exists (String.substring 0 (String.length s - String.length suffix) s).
    rewrite (substring_split (String.length s - String.length suffix) s)
      at 1 by lia.
    f_equal. rewrite <- Hsub at 3. f_equal. lia.
  - intros [p ->]. rewrite length_append. split; [lia|].
    replace (String.length p + String.length suffix - String.length suffix)%nat
      with (String.length p) by lia.
    apply substring_after.
Qed.

(** The entries the loop does not pass over, in words. *)
Lemma candidate_iff_sql_file (file : FileInfo) :
  candidate file = true <->
  IsDir file = false /\ exists stem, Name file = stem +:+ ".sql".
Proof.
  unfold candidate. rewrite andb_true_iff, negb_true_iff, HasSuffix_spec.
  reflexivity.
Qed.

End Suffix.

Section Selection.

Context {E : Type} `{External E}.

(** X1. The body of the loop of [runMigrations] asks the ledger about an
    entry exactly when the entry is not a directory and its name is some
    text, possibly empty, followed by [.sql]: for such an entry, and for no
    other, the turn begins with the lookup for its name. *)
Theorem migrateFile_looks_up_sql_files (db : Conn) (file : FileInfo)
    (s : State E) :
  (IsDir file = false /\ exists stem, Name file = stem +:+ ".sql") <->
  (exists s' t o,
     migrateFile db file s =
       (s',
        EvQueryRow
          ("SELECT 1 FROM migrations WHERE name = '" +:+ Name file +:+ "'")
          :: t,
        o)).
Proof.
  rewrite <- candidate_iff_sql_file. split.
  - intros Hc. destruct (migrateFile db file s) as [[s' t] o] eqn:Hf.
    destruct (migrateFile_turn db file s s' t o Hc Hf)
      as (content & now & k & -> & Hk).
    assert (Hpos : (1 <= k)%nat) by (destruct Hk as [[_ [-> | ->]] | (e & _ & ?)]; lia).
    destruct k as [|k]; [lia|]. simpl. eauto.
  - intros (s' & t & o & Hf). destruct (candidate file) eqn:Hc; [reflexivity|].
    rewrite (migrateFile_skip db file s Hc) in Hf. discriminate Hf.
Qed.

End Selection.

(** ** The shape of a turn, and what follows from it *)

Section Turns.

Context {E : Type} `{External E}.

(** The events of a turn are the first [k] of the five events of an applied
    migration; the turn ends in [continue] when there were none (the entry
    was passed over), one (the ledger had a row) or all five, and in
    [return err] otherwise. *)
Lemma migrateFile_shape (db : Conn) (file : FileInfo) (s s' : State E) t o :
  migrateFile db file s = (s', t, o) ->
  exists content now k,
    t = take k (applied file content now) /\
    ((o = Ret Continue /\ (k = 0 \/ k = 1 \/ k = 5)%nat) \/
     (exists e, o = Ret (Return e) /\ (1 <= k <= 4)%nat)) /\
    (k = 0%nat \/ candidate file = true).
Proof.
  destruct (candidate file) eqn:Hc.
  - destruct (ext_QueryRowUint8 db (sqlExists (Name file)) (world s))
      as [w r] eqn:Hl.
    assert (Hcases : noRecord r \/ r = Ok 1 \/
                     exists e, r = Err e /\ is_ErrNoRows e = false).
    { destruct r as [v|e]; simpl.
      - destruct (decide (v = 1)); subst; auto.
      - destruct (is_ErrNoRows e) eqn:He; eauto. }
    destruct Hcases as [Hr | [-> | (e & -> & He)]].
    + rewrite (migrateFile_pending db file s w r Hc Hl Hr).
      destruct (ext_ReadFile _ w) as [w2 [content|e]].
      * destruct (ext_Exec db content w2) as [w3 [e|]].
        { intros [= <- <- <-]. exists content, 0, 3%nat.
          split; [reflexivity|]. split; [right; exists e; split; [reflexivity|lia]|auto]. }
        destruct (ext_NowUnix w3) as [w4 now].
        destruct (ext_AsyncInsert db _ false w4) as [w5 [e|]];
          intros [= <- <- <-].
        { exists content, now, 4%nat.
          split; [reflexivity|]. split; [right; exists e; split; [reflexivity|lia]|auto]. }
        exists content, now, 5%nat.
        split; [reflexivity|]. split; [left; auto|auto].
      * intros [= <- <- <-]. exists "", 0, 2%nat.
        split; [reflexivity|]. split; [right; exists e; split; [reflexivity|lia]|auto].
    + rewrite (migrateFile_recorded db file s w Hc Hl). intros [= <- <- <-].
      exists "", 0, 1%nat. split; [reflexivity|]. split; [left; auto|auto].
    + rewrite (migrateFile_unknown db file s w e Hc Hl He).
      intros [= <- <- <-]. exists "", 0, 1%nat.
      split; [reflexivity|]. split; [right; exists e; split; [reflexivity|lia]|auto].
  - rewrite (migrateFile_skip db file s Hc). intros [= <- <- <-].
    exists "", 0, 0%nat. split; [reflexivity|]. split; [left; auto|auto].
Qed.

Lemma count_app (p : event -> bool) (t1 t2 : list event) :
  count p (t1 ++ t2) = (count p t1 + count p t2)%nat.
Proof. unfold count. now rewrite List.filter_app, length_app. Qed.

(** The counts of one turn. *)
Lemma migrateFile_counts (db : Conn) (file : FileInfo) (s s' : State E) t o :
  migrateFile db file s = (s', t, o) ->
  (count isInsert t <= count isExec t <= count isInsert t + 1)%nat /\
  (count isNotice t <= count isInsert t <= count isNotice t + 1)%nat /\
  (count isExec t <= count isRead t <= count isExec t + 1)%nat /\
  (count isRead t <= count isLookup t)%nat /\
  (o = Ret Continue ->
   count isExec t = count isInsert t /\ count isInsert t = count isNotice t /\
   count isRead t = count isExec t).
Proof.
  intros (content & now & k & -> & Ho & _)%migrateFile_shape.
  destruct Ho as [[-> Hk] | (e & -> & Hk)].
  - destruct Hk as [-> | [-> | ->]]; cbn; repeat split; auto; lia.
  - destruct k as [|[|[|[|[|k]]]]]; try lia; cbn; repeat split;
      try lia; discriminate.
Qed.

Lemma migrateFiles_counts (db : Conn) (files : list FileInfo)
    (s s' : State E) (t : list event) (o : outcome (option error)) :
  migrateFiles db files s = (s', t, o) ->
  (count isInsert t <= count isExec t <= count isInsert t + 1)%nat /\
  (count isNotice t <= count isInsert t <= count isNotice t + 1)%nat /\
  (count isExec t <= count isRead t <= count isExec t + 1)%nat /\
  (count isRead t <= count isLookup t)%nat /\
  (o = Ret None ->
   count isExec t = count isInsert t /\ count isInsert t = count isNotice t /\
   count isRead t = count isExec t).
Proof.
  revert s s' t o. induction files as [|file files IH]; intros s s' t o.
  - simpl. unfold ret. intros [= <- <- <-]. cbn. repeat split; lia.
  - rewrite migrateFiles_cons.
    destruct (migrateFile db file s) as [[s1 t1] o1] eqn:Hf.
    pose proof (migrateFile_counts db file s s1 t1 o1 Hf)
      as (H1 & H2 & H3 & H4 & H5).
    destruct o1 as [[|e]|msg|code].
    + destruct (H5 eq_refl) as (E1 & E2 & E3).
      destruct (migrateFiles db files s1) as [[s2 t2] o2] eqn:Hr.
      destruct (IH _ _ _ _ Hr) as (I1 & I2 & I3 & I4 & I5).
      intros [= <- <- <-]. rewrite !count_app.
      split; [lia|]. split; [lia|]. split; [lia|]. split; [lia|].
      intros Ho. destruct (I5 Ho) as (J1 & J2 & J3). lia.
    + intros [= <- <- <-]. repeat split; try lia; discriminate.
    + intros [= <- <- <-]. repeat split; try lia; discriminate.
    + intros [= <- <- <-]. repeat split; try lia; discriminate.
Qed.

(** [runMigrations], whatever the directory answers. *)
Lemma runMigrations_cases (db : Conn) (s : State E) :
  runMigrations db s =
    match ext_readdir migrationDir (world s) with
    | (w0, Err e) =>
        (mkState (environ s) w0, [EvReadDir migrationDir], Ret (Some e))
    | (w0, Ok raw) =>
        match migrateFiles db (sort_by_name raw) (mkState (environ s) w0) with
        | (s', t, o) => (s', EvReadDir migrationDir :: t, o)
        end
    end.
Proof.
  destruct (ext_readdir migrationDir (world s)) as [w0 [raw|e]] eqn:Hd.
  - exact (runMigrations_listing db s w0 raw Hd).
  - unfold runMigrations, ioutil_ReadDir, bind, call, ret. rewrite Hd.
    reflexivity.
Qed.

(** X6. In every run of [runMigrations], whatever its end, at most one
    statement has been executed whose insert was not issued, at most one
    insert was issued whose notice was not printed, and at most one file was
    read whose content was not executed; when the run returns [nil] there is
    none of these: as many files were read as executed, recorded and
    announced. *)
Theorem runMigrations_counts (db : Conn) (s s' : State E) (t : list event)
    (o : outcome (option error)) :
  runMigrations db s = (s', t, o) ->
  (count isInsert t <= count isExec t <= count isInsert t + 1)%nat /\
  (count isNotice t <= count isInsert t <= count isNotice t + 1)%nat /\
  (count isExec t <= count isRead t <= count isExec t + 1)%nat /\
  (count isRead t <= count isLookup t)%nat /\
  (o = Ret None ->
   count isExec t = count isInsert t /\ count isInsert t = count isNotice t /\
   count isRead t = count isExec t).
Proof.
  rewrite runMigrations_cases.
  destruct (ext_readdir migrationDir (world s)) as [w0 [raw|e]].
  - destruct (migrateFiles db (sort_by_name raw) _) as [[s1 t1] o1] eqn:Hrun.
    intros [= <- <- <-].
    exact (migrateFiles_counts db _ _ _ _ _ Hrun).
  - intros [= <- <- <-]. cbn. repeat split; try lia; discriminate.
Qed.

(** A listing without a migration in it. *)
Lemma migrateFiles_no_candidate (db : Conn) (files : list FileInfo)
      (s : State E) :
  Forall (fun f => candidate f = false) files ->
  migrateFiles db files s = (s, [], Ret None).
Proof.
  induction 1 as [|file files Hc _ IH]; [reflexivity|].
  rewrite migrateFiles_cons, (migrateFile_skip db file s Hc), IH. reflexivity.
Qed.

(** X2. When the migration directory cannot be read, [runMigrations]
    returns that error and has done nothing else.  When it can be read and
    holds no regular file named [*.sql] (it is empty, say), [runMigrations]
    returns [nil] and has asked the store nothing. *)
Theorem runMigrations_nothing_to_do (db : Conn) (s : State E) (w0 : E)
    (r : res (list FileInfo)) :
  ext_readdir migrationDir (world s) = (w0, r) ->
  match r with
  | Err e =>
      runMigrations db s =
        (mkState (environ s) w0, [EvReadDir migrationDir], Ret (Some e))
  | Ok raw =>
      Forall (fun f => candidate f = false) raw ->
      runMigrations db s =
        (mkState (environ s) w0, [EvReadDir migrationDir], Ret None)
  end.
Proof.
  intros Hd. rewrite runMigrations_cases, Hd. destruct r as [raw|e];
    [|reflexivity].
  intros Hnone. rewrite migrateFiles_no_candidate; [reflexivity|].
  now rewrite sort_by_name_perm.
Qed.

(** X3. When the file of a pending migration cannot be read, the run
    returns the error of the read at once: the read is its last event,
    nothing was executed or inserted for the file, and the files after it
    are not looked at. *)
Theorem runMigrations_halts_on_unreadable_file
    (db : Conn) (s s1 : State E) (w0 w w2 : E) (raw l1 l2 : list FileInfo)
    (F : FileInfo) (t1 : list event) (r : res Z) (e : error) :
  ext_readdir migrationDir (world s) = (w0, Ok raw) ->
  sort_by_name raw = l1 ++ F :: l2 ->
  candidate F = true ->
  migrateFiles db l1 (mkState (environ s) w0) = (s1, t1, Ret None) ->
  ext_QueryRowUint8 db (sqlExists (Name F)) (world s1) = (w, r) ->
  noRecord r ->
  ext_ReadFile (migrationDir +:+ Name F) w = (w2, Err e) ->
  runMigrations db s =
    (mkState (environ s1) w2,
     EvReadDir migrationDir :: t1 ++
       [ EvQueryRow (sqlExists (Name F));
         EvReadFile (migrationDir +:+ Name F) ],
     Ret (Some e)).
Proof.
  intros Hdir Hsplit Hc H1 Hq Hr Hread.
  rewrite (runMigrations_listing db s w0 raw Hdir), Hsplit.
  rewrite (migrateFiles_at db l1 l2 F _ s1 t1 H1).
  rewrite (migrateFile_pending db F s1 w r Hc Hq Hr), Hread. reflexivity.
Qed.

(** X4. When the store has accepted the content of a migration and then
    refuses the insert into the ledger, the run returns the error of the
    insert at once: the content has been executed, the refused insert is the
    last event, no notice is printed, and the files after it are not looked
    at. *)
Theorem runMigrations_halts_on_failed_insert
    (db : Conn) (s s1 : State E) (w0 w w2 w3 w4 w5 : E)
    (raw l1 l2 : list FileInfo) (F : FileInfo) (t1 : list event) (r : res Z)
    (content : string) (now : Z) (e : error) :
  ext_readdir migrationDir (world s) = (w0, Ok raw) ->
  sort_by_name raw = l1 ++ F :: l2 ->
  candidate F = true ->
  migrateFiles db l1 (mkState (environ s) w0) = (s1, t1, Ret None) ->
  ext_QueryRowUint8 db (sqlExists (Name F)) (world s1) = (w, r) ->
  noRecord r ->
  ext_ReadFile (migrationDir +:+ Name F) w = (w2, Ok content) ->
  ext_Exec db content w2 = (w3, None) ->
  ext_NowUnix w3 = (w4, now) ->
  ext_AsyncInsert db (sqlInsert (Name F) now) false w4 = (w5, Some e) ->
  runMigrations db s =
    (mkState (environ s1) w5,
     EvReadDir migrationDir :: t1 ++
       [ EvQueryRow (sqlExists (Name F));
         EvReadFile (migrationDir +:+ Name F);
         EvExec content;
         EvAsyncInsert (sqlInsert (Name F) now) false ],
     Ret (Some e)).
Proof.
  intros Hdir Hsplit Hc H1 Hq Hr Hread Hexec Hnow Hins.
  rewrite (runMigrations_listing db s w0 raw Hdir), Hsplit.
  rewrite (migrateFiles_at db l1 l2 F _ s1 t1 H1).
  rewrite (migrateFile_pending db F s1 w r Hc Hq Hr), Hread, Hexec, Hnow, Hins.
  reflexivity.
Qed.

(** In one turn, an insert stands right after the lookup, the read and the
    execution for the same file. *)
Lemma migrateFile_insert_follows_exec (db : Conn) (file : FileInfo)
      (s s' : State E) t o pre q wait post :
  migrateFile db file s = (s', t, o) ->
  t = pre ++ EvAsyncInsert q wait :: post ->
  candidate file = true /\ wait = false /\
  exists content now,
    q = sqlInsert (Name file) now /\
    pre = [ EvQueryRow (sqlExists (Name file));
            EvReadFile (migrationDir +:+ Name file);
            EvExec content ].
Proof.
  intros (content & now & k & -> & _ & Hk)%migrateFile_shape Ht.
  assert (Hpre : wait = false /\ q = sqlInsert (Name file) now /\
                 pre = [ EvQueryRow (sqlExists (Name file));
                         EvReadFile (migrationDir +:+ Name file);
                         EvExec content ]).
  { unfold applied in Ht.
    destruct k as [|[|[|[|[|k]]]]]; simpl in Ht; rewrite ?take_nil in Ht;
      do 6 (try (destruct pre as [|? pre]; simpl in Ht; try discriminate Ht));
      injection Ht as <- <- <- <- <- <-; auto. }
  destruct Hpre as (-> & -> & ->).
  split; [|split; [reflexivity|eauto]].
  destruct Hk as [-> | Hc]; [|exact Hc].
  simpl in Ht. discriminate Ht.
Qed.

Lemma migrateFiles_insert_follows_exec (db : Conn) (files : list FileInfo)
    (s s' : State E) (t : list event) (o : outcome (option error))
    (pre post : list event) (q : string) (wait : bool) :
  migrateFiles db files s = (s', t, o) ->
  t = pre ++ EvAsyncInsert q wait :: post ->
  wait = false /\
  exists file content now before,
    file ∈ files /\ candidate file = true /\
    q = sqlInsert (Name file) now /\
    pre = before ++ [ EvQueryRow (sqlExists (Name file));
                      EvReadFile (migrationDir +:+ Name file);
                      EvExec content ].
Proof.
  revert s s' t o pre post.
  induction files as [|file files IH]; intros s s' t o pre post.
  - simpl. unfold ret. intros [= <- <- <-] Ht. destruct pre; discriminate Ht.
  - rewrite migrateFiles_cons.
    destruct (migrateFile db file s) as [[s1 t1] o1] eqn:Hf.
    assert (Hin1 : forall pre' post', t1 = pre' ++ EvAsyncInsert q wait :: post' ->
              wait = false /\
              exists f content now before,
                f ∈ file :: files /\ candidate f = true /\
                q = sqlInsert (Name f) now /\
                pre' = before ++ [ EvQueryRow (sqlExists (Name f));
                                   EvReadFile (migrationDir +:+ Name f);
                                   EvExec content ]).
    { intros pre' post' Ht1.
      destruct (migrateFile_insert_follows_exec _ _ _ _ _ _ _ _ _ _ Hf Ht1)
        as (Hc & Hw & content & now & Hq & Hpre).
      split; [exact Hw|]. exists file, content, now, [].
      repeat split; auto. left. }
    destruct o1 as [[|e]|msg|code];
      try (intros [= <- <- <-] Ht; exact (Hin1 _ _ Ht)).
    destruct (migrateFiles db files s1) as [[s2 t2] o2] eqn:Hr.
    intros [= <- <- <-] Ht.
    apply app_eq_inv in Ht as [(k & Hk1 & Hk2) | (k & Hk1 & Hk2)].
    + destruct k as [|ev k].
      * simpl in Hk2. rewrite app_nil_r in Hk1. subst pre.
        destruct (IH _ _ _ _ [] post Hr (eq_sym Hk2))
          as (Hw & f & content & now & before & Hin & Hc & Hq & Hpre).
        destruct before; discriminate Hpre.
      * injection Hk2 as <- Hk2. exact (Hin1 _ _ Hk1).
    + subst pre.
      destruct (IH _ _ _ _ k post Hr Hk2)
        as (Hw & f & content & now & before & Hin & Hc & Hq & Hpre).
      split; [exact Hw|]. exists f, content, now, (t1 ++ before).
      repeat split; auto; [right; exact Hin|].
      rewrite Hpre, app_assoc. reflexivity.
Qed.

(** X5. No insert without its execution, in any run: wherever an insert
    into the ledger stands in the trace of [runMigrations], whatever the end
    of the run, it is issued without waiting ([wait = false]), it is the
    insert for a regular [*.sql] file of the directory, and the three events
    right before it are the lookup for that file, the read of that file and
    the execution of a content. *)
Theorem runMigrations_insert_follows_exec (db : Conn) (s s' : State E)
    (t : list event) (o : outcome (option error))
    (pre post : list event) (q : string) (wait : bool) :
  runMigrations db s = (s', t, o) ->
  t = pre ++ EvAsyncInsert q wait :: post ->
  wait = false /\
  exists w0 raw file content now before,
    ext_readdir migrationDir (world s) = (w0, Ok raw) /\
    file ∈ raw /\ candidate file = true /\
    q = sqlInsert (Name file) now /\
    pre = before ++ [ EvQueryRow (sqlExists (Name file));
                      EvReadFile (migrationDir +:+ Name file);
                      EvExec content ].
Proof.
  rewrite runMigrations_cases.
  destruct (ext_readdir migrationDir (world s)) as [w0 [raw|e]] eqn:Hd.
  - destruct (migrateFiles db (sort_by_name raw) _) as [[s1 t1] o1] eqn:Hrun.
    intros [= <- <- <-] Ht.
    destruct pre as [|ev pre]; [discriminate Ht|].
    injection Ht as <- Ht.
    destruct (migrateFiles_insert_follows_exec db _ _ _ _ _ _ _ _ _ Hrun Ht)
      as (Hw & file & content & now & before & Hin & Hc & Hq & Hpre).
    split; [exact Hw|].
    exists w0, raw, file, content, now, (EvReadDir migrationDir :: before).
    split; [reflexivity|]. split; [now rewrite <- (sort_by_name_perm raw)|].
    split; [exact Hc|]. split; [exact Hq|]. now rewrite Hpre.
  - intros [= <- <- <-] Ht.
    destruct pre as [|ev [|ev' pre]]; discriminate Ht.
Qed.

(** Names that are distinct in a listing tell its entries apart. *)
Lemma NoDup_names_inj (l : list FileInfo) (a b : FileInfo) :
  NoDup (Name <$> l) -> a ∈ l -> b ∈ l -> Name a = Name b -> a = b.
Proof.
  induction l as [|x l IH]; intros Hnd Ha Hb Hab.
  - now apply not_elem_of_nil in Ha.
  - rewrite fmap_cons in Hnd. apply NoDup_cons in Hnd as [Hx Hnd].
    apply elem_of_cons in Ha as [->|Ha]; apply elem_of_cons in Hb as [->|Hb].
    + reflexivity.
    + exfalso. apply Hx. rewrite Hab. apply list_elem_of_fmap. eauto.
    + exfalso. apply Hx. rewrite <- Hab. apply list_elem_of_fmap. eauto.
    + now apply IH.
Qed.

Lemma sort_by_name_order_irrelevant (raw raw' : list FileInfo) :
  raw ≡ₚ raw' -> NoDup (Name <$> raw) ->
  sort_by_name raw = sort_by_name raw'.
Proof.
  intros Hperm Hnd.
  apply (StronglySorted_unique_strong name_le).
  - intros a b Ha Hb Hab Hba.
    rewrite sort_by_name_perm in Ha. rewrite sort_by_name_perm, <- Hperm in Hb.
    apply (NoDup_names_inj raw a b Hnd Ha Hb).
    unfold name_le in *. now apply (anti_symm String.le).
  - apply sort_by_name_sorted.
  - apply sort_by_name_sorted.
  - now rewrite !sort_by_name_perm.
Qed.

(** X12. The order in which the operating system hands out the entries of
    the directory does not matter: [runMigrations] on a directory read as
    [raw] does what it would do had the same entries been read in any other
    order [raw']. *)
Theorem runMigrations_listing_order_irrelevant
    (db : Conn) (s : State E) (w0 : E) (raw raw' : list FileInfo) :
  ext_readdir migrationDir (world s) = (w0, Ok raw) ->
  raw ≡ₚ raw' ->
  NoDup (Name <$> raw) ->
  runMigrations db s =
    match migrateFiles db (sort_by_name raw') (mkState (environ s) w0) with
    | (s', t, o) => (s', EvReadDir migrationDir :: t, o)
    end.
Proof.
  intros Hd Hperm Hnd.
  rewrite (runMigrations_listing db s w0 raw Hd).
  now rewrite (sort_by_name_order_irrelevant raw raw' Hperm Hnd).
Qed.

End Turns.

(** X13. The statements and the path made for a file tell the files apart:
    for two different names the lookups differ, the paths differ, and the
    inserts differ whatever the two time stamps are. *)
Theorem statements_name_their_file (a b : string) :
  a ≠ b ->
  sqlExists a ≠ sqlExists b /\
  migrationDir +:+ a ≠ migrationDir +:+ b /\
  forall t u, sqlInsert a t ≠ sqlInsert b u.
Proof.
  intros Hab. split; [|split].
  - intros Heq. apply Hab. now apply sqlExists_inj.
  - intros Heq. apply Hab. now apply migrationPath_inj.
  - intros t u Heq. apply Hab. now apply sqlInsert_inj in Heq.
Qed.

(** ** What a command does to the process and to the world *)

Section Commands.

Context {E : Type} `{External E}.

Lemma migrateFile_environ (db : Conn) (file : FileInfo) (s s' : State E) t o :
  migrateFile db file s = (s', t, o) -> environ s' = environ s.
Proof.
  destruct (candidate file) eqn:Hc.
  - destruct (ext_QueryRowUint8 db (sqlExists (Name file)) (world s))
      as [w r] eqn:Hl.
    assert (Hcases : noRecord r \/ r = Ok 1 \/
                     exists e, r = Err e /\ is_ErrNoRows e = false).
    { destruct r as [v|e]; simpl.
      - destruct (decide (v = 1)); subst; auto.
      - destruct (is_ErrNoRows e) eqn:He; eauto. }
    destruct Hcases as [Hr | [-> | (e & -> & He)]].
    + rewrite (migrateFile_pending db file s w r Hc Hl Hr).
      destruct (ext_ReadFile _ w) as [w2 [content|e]];
        [|now intros [= <- <- <-]].
      destruct (ext_Exec db content w2) as [w3 [e|]];
        [now intros [= <- <- <-]|].
      destruct (ext_NowUnix w3) as [w4 now].
      destruct (ext_AsyncInsert db _ false w4) as [w5 [e|]];
        now intros [= <- <- <-].
    + rewrite (migrateFile_recorded db file s w Hc Hl). now intros [= <- <- <-].
    + rewrite (migrateFile_unknown db file s w e Hc Hl He).
      now intros [= <- <- <-].
  - rewrite (migrateFile_skip db file s Hc). now intros [= <- <- <-].
Qed.

Lemma migrateFiles_environ (db : Conn) (files : list FileInfo)
      (s s' : State E) t o :
  migrateFiles db files s = (s', t, o) -> environ s' = environ s.
Proof.
  revert s s' t o. induction files as [|file files IH]; intros s s' t o.
  - simpl. unfold ret. now intros [= <- <- <-].
  - rewrite migrateFiles_cons.
    destruct (migrateFile db file s) as [[s1 t1] o1] eqn:Hf.
    apply migrateFile_environ in Hf.
    destruct o1 as [[|e]|msg|code]; try (now intros [= <- <- <-]).
    destruct (migrateFiles db files s1) as [[s2 t2] o2] eqn:Hr.
    apply IH in Hr. intros [= <- <- <-]. congruence.
Qed.

Lemma runMigrations_environ (db : Conn) (s s' : State E) t o :
  runMigrations db s = (s', t, o) -> environ s' = environ s.
Proof.
  rewrite runMigrations_cases.
  destruct (ext_readdir migrationDir (world s)) as [w0 [raw|e]].
  - destruct (migrateFiles db (sort_by_name raw) _) as [[s1 t1] o1] eqn:Hrun.
    apply migrateFiles_environ in Hrun. now intros [= <- <- <-].
  - now intros [= <- <- <-].
Qed.

(** [createMigrationsTable], whatever the probe answers. *)
Lemma createMigrationsTable_cases (db : Conn) (s : State E) :
  createMigrationsTable db s =
    match ext_QueryRowString db sqlShowTables (world s) with
    | (w, r) =>
        if tablePresent r then
          (mkState (environ s) w, [EvQueryRow sqlShowTables], Ret None)
        else if tableAbsent r then
          match ext_Exec db sqlCreateTable w with
          | (w', err) =>
              (mkState (environ s) w',
               [EvQueryRow sqlShowTables; EvExec sqlCreateTable], Ret err)
          end
        else
          (mkState (environ s) w, [EvQueryRow sqlShowTables],
           Panicked (match r with Err e => Error e | Ok _ => "" end))
    end.
Proof.
  destruct (ext_QueryRowString db sqlShowTables (world s)) as [w r] eqn:Hq.
  destruct (tablePresent r) eqn:Hp.
  - exact (createMigrationsTable_present db s w r Hq Hp).
  - destruct (tableAbsent r) eqn:Ha.
    + exact (createMigrationsTable_absent db s w r Hq Ha).
    + destruct r as [v|e]; simpl in *.
      * destruct (String.eqb v ""); discriminate.
      * exact (createMigrationsTable_panics db s w e Hq Ha).
Qed.

(** [getDbConn] hands back a connection or an error, never both and never
    neither. *)
Lemma getDbConn_result (isTest : bool) (s s' : State E) t o :
  getDbConn isTest s = (s', t, o) ->
  environ s' = environ s /\
  ((exists e, o = Ret (None, Some e) /\
      (t = [] \/ t = [EvOpen (dbOptions isTest (environ s))])) \/
   (o = Ret (Some (mkConn (dbOptions isTest (environ s))), None) /\
    t = [EvOpen (dbOptions isTest (environ s))])).
Proof.
  rewrite getDbConn_unfold.
  destruct (_ && _).
  - intros [= <- <- <-]. split; [reflexivity|]. left. eauto.
  - destruct (ext_Open _ (world s)) as [w [e|]]; intros [= <- <- <-];
      (split; [reflexivity|]); [left|right]; eauto.
Qed.

(** X9. When [getDbConn] returns an error, [migrate] returns that error and
    stops: nothing has been asked of the store and the migration directory
    has not been read; the trace holds at most the attempt to open the
    connection. *)
Theorem migrate_without_connection (isTest : bool) (s s0 : State E)
    (t0 : list event) (conn : option Conn) (e : error) :
  getDbConn isTest s = (s0, t0, Ret (conn, Some e)) ->
  migrate isTest s = (s0, t0, Ret (Some e)) /\
  count isStoreOrFile t0 = 0%nat /\
  (count isOpen t0 <= 1)%nat.
Proof.
  intros Hc. split.
  - unfold migrate, bind, ret. rewrite Hc. now rewrite app_nil_r.
  - destruct (getDbConn_result _ _ _ _ _ Hc) as (_ & [(e' & _ & [-> | ->]) | [[=] _]]);
      cbn; split; lia.
Qed.

(** X11. A connection that [getDbConn] returns was opened once, with one
    address, the database named after [DB_NAME] (or [logme]) with [_test]
    in test mode, the user and password of [DB_USER] and [DB_PASS] (empty
    when unset), LZ4 compression and a [max_execution_time] of 60. *)
Theorem getDbConn_options (isTest : bool) (s s0 : State E) (t0 : list event)
    (db : Conn) :
  getDbConn isTest s = (s0, t0, Ret (Some db, None)) ->
  t0 = [EvOpen (conn_options db)] /\
  exists addr,
    resolveAddr (environ s) = Some addr /\
    conn_options db =
      mkOptions [addr]
        (mkAuth (resolveDatabase isTest (environ s))
                (Getenv (environ s) "DB_USER")
                (Getenv (environ s) "DB_PASS"))
        CompressionLZ4
        [("max_execution_time", 60)].
Proof.
  rewrite getDbConn_unfold.
  destruct (String.eqb (Getenv (environ s) "DB_ADDR") "") eqn:Ha; simpl.
  - destruct (String.eqb (Getenv (environ s) "DB_LOCAL_ADDR") "") eqn:Hl;
      simpl; [discriminate|].
    destruct (ext_Open _ (world s)) as [w [e|]]; [discriminate|].
    intros [= <- <- <-]. split; [reflexivity|].
    exists (Getenv (environ s) "DB_LOCAL_ADDR"). split.
    + unfold resolveAddr. rewrite !nonEmpty_Getenv, Ha, Hl. reflexivity.
    + unfold dbOptions, resolveDatabase. simpl.
      rewrite nonEmpty_Getenv, Ha.
      destruct (String.eqb (Getenv (environ s) "DB_NAME") ""); reflexivity.
  - destruct (ext_Open _ (world s)) as [w [e|]]; [discriminate|].
    intros [= <- <- <-]. split; [reflexivity|].
    exists (Getenv (environ s) "DB_ADDR"). split.
    + unfold resolveAddr. rewrite !nonEmpty_Getenv, Ha. reflexivity.
    + unfold dbOptions, resolveDatabase. simpl.
      rewrite nonEmpty_Getenv, Ha.
      destruct (String.eqb (Getenv (environ s) "DB_NAME") ""); reflexivity.
Qed.

Lemma runMigrations_returns (db : Conn) (s : State E) :
  exists s' t r, runMigrations db s = (s', t, Ret r).
Proof.
  rewrite runMigrations_cases.
  destruct (ext_readdir migrationDir (world s)) as [w0 [raw|e]]; [|eauto].
  destruct (migrateFiles_returns db (sort_by_name raw)
              (mkState (environ s) w0)) as (s' & t & r & ->). eauto.
Qed.

(** X8. [migrate] never ends the process through [log.Fatal], and it panics
    in one case only: it has its connection and the probe for the table
    fails with an error other than [sql.ErrNoRows]; the panic carries the
    message of that error and comes right after the probe.  In every other
    case [migrate] returns, with [nil] or with an error. *)
Theorem migrate_outcomes (isTest : bool) (s s' : State E) (t : list event)
    (o : outcome (option error)) :
  migrate isTest s = (s', t, o) ->
  match o with
  | Ret _ => True
  | Exited _ => False
  | Panicked msg =>
      exists db s0 t0 w e,
        getDbConn isTest s = (s0, t0, Ret (Some db, None)) /\
        ext_QueryRowString db sqlShowTables (world s0) = (w, Err e) /\
        is_ErrNoRows e = false /\
        msg = Error e /\
        t = t0 ++ [EvQueryRow sqlShowTables]
  end.
Proof.
  destruct (getDbConn isTest s) as [[s0 t0] o0] eqn:Hc.
  destruct (getDbConn_result _ _ _ _ _ Hc) as (_ & [(e & -> & _) | [-> _]]).
  - destruct (migrate_without_connection _ _ _ _ _ _ Hc) as (-> & _).
    now intros [= <- <- <-].
  - rewrite (migrate_connected _ _ _ _ _ Hc), createMigrationsTable_cases.
    destruct (ext_QueryRowString _ sqlShowTables (world s0)) as [w r] eqn:Hq.
    destruct (tablePresent r) eqn:Hp.
    + destruct (runMigrations_returns (mkConn (dbOptions isTest (environ s)))
                  (mkState (environ s0) w)) as (s2 & t2 & r2 & ->).
      now intros [= <- <- <-].
    + destruct (tableAbsent r) eqn:Ha.
      * destruct (ext_Exec _ sqlCreateTable w) as [w' [e|]].
        { now intros [= <- <- <-]. }
        destruct (runMigrations_returns (mkConn (dbOptions isTest (environ s)))
                    (mkState (environ s0) w')) as (s2 & t2 & r2 & ->).
        now intros [= <- <- <-].
      * intros [= <- <- <-]. destruct r as [v|e]; simpl in *.
        { destruct (String.eqb v ""); discriminate. }
        exists (mkConn (dbOptions isTest (environ s))), s0, t0, w, e.
        repeat split; auto.
Qed.

Lemma migrate_environ (isTest : bool) (s s' : State E) t o :
  migrate isTest s = (s', t, o) -> environ s' = environ s.
Proof.
  destruct (getDbConn isTest s) as [[s0 t0] o0] eqn:Hc.
  destruct (getDbConn_result _ _ _ _ _ Hc) as (He0 & [(e & -> & _) | [-> _]]).
  - destruct (migrate_without_connection _ _ _ _ _ _ Hc) as (-> & _).
    intros [= <- <- <-]. exact He0.
  - rewrite (migrate_connected _ _ _ _ _ Hc), createMigrationsTable_cases.
    destruct (ext_QueryRowString _ sqlShowTables (world s0)) as [w r].
    destruct (tablePresent r).
    + destruct (runMigrations _ (mkState (environ s0) w))
        as [[s2 t2] o2] eqn:Hr.
      apply runMigrations_environ in Hr. intros [= <- <- <-].
      simpl in Hr. congruence.
    + destruct (tableAbsent r).
      * destruct (ext_Exec _ sqlCreateTable w) as [w' [e|]].
        { intros [= <- <- <-]. exact He0. }
        destruct (runMigrations _ (mkState (environ s0) w'))
          as [[s2 t2] o2] eqn:Hr.
        apply runMigrations_environ in Hr. intros [= <- <- <-].
        simpl in Hr. congruence.
      * intros [= <- <- <-]. exact He0.
Qed.

(** [test], whatever its command yields. *)
Lemma test_result (s : State E) w out err :
  ext_Output "/bin/sh" goTest (world s) = (w, (out, err)) ->
  test s =
    (mkState (environ s) w,
     [EvCommand "/bin/sh" goTest; EvStdout (out +:+ nl)], Ret None).
Proof.
  intros Hc. unfold test, exec_Command_Output, fmt_Printf_s_nl, bind, call,
    emit, ret. fold goTest. rewrite Hc. reflexivity.
Qed.

(** The word after the program name chooses one of six actions, or the
    usage. *)
Lemma app_Run_cases (args : list string) (s : State E) :
  app_Run args s = migrate false s \/ app_Run args s = migrate true s \/
  app_Run args s = up s \/ app_Run args s = down s \/
  app_Run args s = list_ s \/ app_Run args s = test s \/
  app_Run args s = (s, [EvUsage], Ret None).
Proof.
  destruct args as [|prog [|name rest]]; [auto 10..|].
  unfold app_Run, commands, HasName. simpl.
  repeat (destruct (String.eqb name _); simpl; [auto 10|]).
  auto 10.
Qed.

(** X7. No command changes the environment of the process: whatever
    [app.Run] is given and however the command ends, the variables are
    afterwards what they were before.  (Only [godotenv.Load] in [main]
    adds variables.) *)
Theorem commands_preserve_environ (args : list string) (s s' : State E)
    (t : list event) (o : outcome (option error)) :
  app_Run args s = (s', t, o) -> environ s' = environ s.
Proof.
  destruct (app_Run_cases args s) as [-> | [-> | [-> | [-> | [-> | [-> | ->]]]]]].
  - apply migrate_environ.
  - apply migrate_environ.
  - destruct (ext_Output "/bin/sh" ["-c"; "docker-compose up"; "-d"] (world s))
      as [w [out err]] eqn:Hc.
    rewrite (up_propagates s w out err Hc). now intros [= <- <- <-].
  - destruct (ext_Output "/bin/sh" ["-c"; "docker-compose down"] (world s))
      as [w [out err]] eqn:Hc.
    rewrite (down_propagates s w out err Hc). now intros [= <- <- <-].
  - destruct (ext_Output "/bin/sh" ["-c"; dockerPs] (world s))
      as [w [out err]] eqn:Hc.
    rewrite (list_propagates s w out err Hc). now intros [= <- <- <-].
  - destruct (ext_Output "/bin/sh" goTest (world s)) as [w [out err]] eqn:Hc.
    rewrite (test_result s w out err Hc). now intros [= <- <- <-].
  - now intros [= <- <- <-].
Qed.

Lemma migrateFiles_trace_kinds (db : Conn) (files : list FileInfo)
      (s s' : State E) t o :
  migrateFiles db files s = (s', t, o) ->
  Forall (fun ev => isStoreOrFile ev = true \/ isNotice ev = true) t.
Proof.
  intros Hrun%migrateFiles_events.
  eapply Forall_impl; [exact Hrun|]. intros ev (f & _ & [Hab | [c ->]]).
  - destruct ev; simpl in *; auto; contradiction.
  - left. reflexivity.
Qed.

Lemma runMigrations_trace_kinds (db : Conn) (s s' : State E) t o :
  runMigrations db s = (s', t, o) ->
  Forall (fun ev => isStoreOrFile ev = true \/ isNotice ev = true) t.
Proof.
  rewrite runMigrations_cases.
  destruct (ext_readdir migrationDir (world s)) as [w0 [raw|e]].
  - destruct (migrateFiles db (sort_by_name raw) _) as [[s1 t1] o1] eqn:Hrun.
    apply migrateFiles_trace_kinds in Hrun. intros [= <- <- <-].
    constructor; [left; reflexivity|exact Hrun].
  - intros [= <- <- <-]. constructor; [left; reflexivity|constructor].
Qed.

(** X10. One connection for an invocation: the trace of [migrate] is empty,
    or it begins with the one [clickhouse.Open] of the run; what follows
    consists of calls to the store, reads in the migration directory and
    notices on standard output only (no second connection, no shell
    command, nothing on standard error), and its first event, if any, is
    the probe for the ledger table. *)
Theorem migrate_opens_one_connection (isTest : bool) (s s' : State E)
    (t : list event) (o : outcome (option error)) :
  migrate isTest s = (s', t, o) ->
  t = [] \/
  exists opts rest,
    t = EvOpen opts :: rest /\
    Forall (fun ev => isStoreOrFile ev = true \/ isNotice ev = true) rest /\
    (rest = [] \/ exists rest', rest = EvQueryRow sqlShowTables :: rest').
Proof.
  destruct (getDbConn isTest s) as [[s0 t0] o0] eqn:Hc.
  destruct (getDbConn_result _ _ _ _ _ Hc)
    as (_ & [(e & -> & Ht0) | [-> ->]]).
  - destruct (migrate_without_connection _ _ _ _ _ _ Hc) as (-> & _).
    intros [= <- <- <-]. destruct Ht0 as [-> | ->]; [left; reflexivity|].
    right. eexists _, []. repeat split; auto.
  - rewrite (migrate_connected _ _ _ _ _ Hc), createMigrationsTable_cases.
    destruct (ext_QueryRowString _ sqlShowTables (world s0)) as [w r].
    assert (Hprobe : isStoreOrFile (EvQueryRow sqlShowTables) = true
                     \/ isNotice (EvQueryRow sqlShowTables) = true)
      by (left; reflexivity).
    assert (Hcreate : isStoreOrFile (EvExec sqlCreateTable) = true
                      \/ isNotice (EvExec sqlCreateTable) = true)
      by (left; reflexivity).
    destruct (tablePresent r).
    + destruct (runMigrations _ (mkState (environ s0) w))
        as [[s2 t2] o2] eqn:Hr.
      apply runMigrations_trace_kinds in Hr. intros [= <- <- <-].
      right. eexists _, _. split; [reflexivity|]. split; [|eauto].
      constructor; assumption.
    + destruct (tableAbsent r).
      * destruct (ext_Exec _ sqlCreateTable w) as [w' [e|]].
        { intros [= <- <- <-]. right. eexists _, _.
          split; [reflexivity|]. split; [|eauto]. repeat constructor; assumption. }
        destruct (runMigrations _ (mkState (environ s0) w'))
          as [[s2 t2] o2] eqn:Hr.
        apply runMigrations_trace_kinds in Hr. intros [= <- <- <-].
        right. eexists _, _. split; [reflexivity|]. split; [|eauto].
        repeat (constructor; [assumption|]). exact Hr.
      * intros [= <- <- <-]. right. eexists _, _.
        split; [reflexivity|]. split; [|eauto]. repeat constructor; assumption.
Qed.

End Commands.

(** ** Choosing the command *)

Section Dispatch.

Context {E : Type} `{External E}.

(** No word is a name or an alias of two commands. *)
Lemma commands_names_distinct (name : string) (c1 c2 : @Command E) :
  c1 ∈ commands -> c2 ∈ commands ->
  HasName c1 name = true -> HasName c2 name = true -> c1 = c2.
Proof.
  unfold commands. intros H1 H2.
  repeat (apply elem_of_cons in H1 as [->|H1]);
    try (now apply not_elem_of_nil in H1);
    repeat (apply elem_of_cons in H2 as [->|H2]);
    try (now apply not_elem_of_nil in H2);
    try reflexivity;
    unfold HasName; simpl; rewrite !orb_false_r, !orb_true_iff, !String.eqb_eq;
    intros [-> | ->] [Hn | Hn]; discriminate Hn.
Qed.

Lemma find_elem_of {A} (p : A -> bool) (l : list A) (x : A) :
  List.find p l = Some x -> x ∈ l /\ p x = true.
Proof.
  intros [Hin Hp]%List.find_some. split; [|exact Hp].
  now apply list_elem_of_In.
Qed.

Lemma find_None_elem_of {A} (p : A -> bool) (l : list A) (x : A) :
  List.find p l = None -> x ∈ l -> p x = false.
Proof.
  intros Hnone Hin. apply (List.find_none p l Hnone).
  now apply list_elem_of_In.
Qed.

(** X14. [main] sorts the commands by name before it runs the
    application.  Whatever order that leaves them in, a word chooses the
    same command: the first command with that name or alias in any
    rearrangement of the table is the first one in the table as written. *)
Theorem dispatch_order_irrelevant (cmds : list (@Command E)) (name : string) :
  cmds ≡ₚ commands ->
  List.find (fun c => HasName c name) cmds =
  List.find (fun c => HasName c name) commands.
Proof.
  intros Hperm.
  destruct (List.find (fun c => HasName c name) cmds) as [c|] eqn:Hf;
    destruct (List.find (fun c => HasName c name) commands) as [c'|] eqn:Hf';
    try reflexivity.
  - apply find_elem_of in Hf as [Hin Hp]. apply find_elem_of in Hf' as [Hin' Hp'].
    rewrite Hperm in Hin. f_equal.
    exact (commands_names_distinct name c c' Hin Hin' Hp Hp').
  - apply find_elem_of in Hf as [Hin Hp]. rewrite Hperm in Hin.
    rewrite (find_None_elem_of _ _ c Hf' Hin) in Hp. discriminate Hp.
  - apply find_elem_of in Hf' as [Hin' Hp']. rewrite <- Hperm in Hin'.
    rewrite (find_None_elem_of _ _ c' Hf Hin') in Hp'. discriminate Hp'.
Qed.

(** X15. [main] asked to migrate when no address can be found, neither in
    the process nor in [.env]: the process exits with status 1, the message
    of [getDbConn] is on standard error, and nothing was done besides
    reading [.env]. *)
Theorem main_migrate_without_address (prog name : string) (rest : list string)
    (s : State E) (w : E) (content : string) (envMap : gmap string string) :
  name ∈ ["migrate"; "m"; "migrate-test"; "mt"] ->
  ext_ReadFile ".env" (world s) = (w, Ok content) ->
  ext_ParseDotenv content = Ok envMap ->
  resolveAddr (environ s ∪ envMap) = None ->
  main (prog :: name :: rest) s =
    (mkState (environ s ∪ envMap) w,
     [ EvReadFile ".env";
       EvStderr
         "environment variable DB_ADDR or DB_LOCAL_ADDR required for migrations" ],
     Exited 1).
Proof.
  intros Hname Hread Hparse Haddr.
  assert (Hrun : forall isTest,
            migrate isTest (mkState (environ s ∪ envMap) w) =
            (mkState (environ s ∪ envMap) w, [], Ret (Some configError))).
  { intros isTest. unfold migrate, bind, ret.
    rewrite getDbConn_unfold. simpl.
    unfold resolveAddr in Haddr. rewrite !nonEmpty_Getenv in Haddr.
    destruct (String.eqb (Getenv (environ s ∪ envMap) "DB_ADDR") "");
      [|discriminate Haddr].
    destruct (String.eqb (Getenv (environ s ∪ envMap) "DB_LOCAL_ADDR") "");
      [|discriminate Haddr].
    reflexivity. }
  unfold main, godotenv_Load, os_ReadFile, log_Fatal, bind, call, ret.
  rewrite Hread. simpl. rewrite Hparse. simpl.
  repeat (apply elem_of_cons in Hname as [->|Hname]);
    try (now apply not_elem_of_nil in Hname);
    unfold app_Run, commands, HasName; simpl; rewrite Hrun; reflexivity.
Qed.

End Dispatch.

(** ** From the earlier revision to this one *)

Section Revisions.

Context {E : Type} `{External E}.

Lemma V1_getDbConn_unfold (isTest : bool) (s : State E) :
  V1.getDbConn isTest s =
    if String.eqb (Getenv (environ s) "DB_ADDR") ""
    then (s, [], Ret (None, Some addressRequired))
    else
      match ext_Open (dbOptions isTest (environ s)) (world s) with
      | (w, None) =>
          (mkState (environ s) w, [EvOpen (dbOptions isTest (environ s))],
           Ret (Some (mkConn (dbOptions isTest (environ s))), None))
      | (w, Some e) =>
          (mkState (environ s) w, [EvOpen (dbOptions isTest (environ s))],
           Ret (None, Some e))
      end.
Proof.
  unfold V1.getDbConn, dbOptions, clickhouse_Open, os_Getenv, bind, call, ret.
  simpl.
  destruct (String.eqb (Getenv (environ s) "DB_ADDR") ""); simpl;
    [reflexivity|].
  assert (Hu : (if negb (String.eqb (Getenv (environ s) "DB_USER") "")
                then Getenv (environ s) "DB_USER" else "")
               = Getenv (environ s) "DB_USER").
  { destruct (String.eqb_spec (Getenv (environ s) "DB_USER") "") as [->|];
      reflexivity. }
  assert (Hp : (if negb (String.eqb (Getenv (environ s) "DB_PASS") "")
                then Getenv (environ s) "DB_PASS" else "")
               = Getenv (environ s) "DB_PASS").
  { destruct (String.eqb_spec (Getenv (environ s) "DB_PASS") "") as [->|];
      reflexivity. }
  rewrite Hu, Hp.
  destruct (ext_Open _ (world s)) as [w [e|]]; reflexivity.
Qed.

(** X16. The two revisions of [getDbConn] differ only where [DB_ADDR] is
    unset or empty: there the earlier one returns its error at once,
    whatever [DB_LOCAL_ADDR] holds; with a non-empty [DB_ADDR] both open the
    same connection and return the same result. *)
Theorem getDbConn_revisions (isTest : bool) (s : State E) :
  match nonEmpty (environ s) "DB_ADDR" with
  | Some _ => V1.getDbConn isTest s = getDbConn isTest s
  | None =>
      V1.getDbConn isTest s = (s, [], Ret (None, Some addressRequired))
  end.
Proof.
  rewrite V1_getDbConn_unfold, getDbConn_unfold, nonEmpty_Getenv.
  destruct (String.eqb (Getenv (environ s) "DB_ADDR") ""); reflexivity.
Qed.

Lemma nonEmpty_union (env envMap : gmap string string) (key : string) :
  nonEmpty env key ≠ None ->
  nonEmpty (env ∪ envMap) key = nonEmpty env key.
Proof.
  unfold nonEmpty. destruct (env !! key) as [v|] eqn:Hv; [|congruence].
  intros _. now rewrite (lookup_union_Some_l env envMap key v Hv).
Qed.

Lemma migrate_revisions (isTest : bool) (s : State E) :
  nonEmpty (environ s) "DB_ADDR" ≠ None ->
  V1.migrate isTest s = migrate isTest s.
Proof.
  intros Ha. unfold V1.migrate, migrate, bind.
  pose proof (getDbConn_revisions isTest s) as Hg.
  destruct (nonEmpty (environ s) "DB_ADDR"); [|congruence].
  rewrite Hg. reflexivity.
Qed.

(** X17. A call of the earlier program still works with this one: with a
    non-empty [DB_ADDR] in the environment of the process, [main] of this
    revision given [m] or [mt] does exactly what [main] of the earlier
    revision did, whatever [.env] and the store answer. *)
Theorem main_revisions (prog name : string) (rest : list string)
    (s : State E) :
  nonEmpty (environ s) "DB_ADDR" ≠ None ->
  name = "m" \/ name = "mt" ->
  V1.main (prog :: name :: rest) s = main (prog :: name :: rest) s.
Proof.
  intros Ha Hname.
  assert (Hrun : forall envMap w,
            V1.app_Run (prog :: name :: rest) (mkState (environ s ∪ envMap) w) =
            app_Run (prog :: name :: rest) (mkState (environ s ∪ envMap) w)).
  { intros envMap w.
    assert (Ha' : nonEmpty (environ (mkState (environ s ∪ envMap) w)) "DB_ADDR"
                  ≠ None) by (simpl; now rewrite nonEmpty_union).
    destruct Hname as [-> | ->];
      unfold V1.app_Run, app_Run, V1.commands, commands, HasName; simpl;
      exact (migrate_revisions _ _ Ha'). }
  unfold V1.main, main.
  set (old := V1.app_Run (prog :: name :: rest)) in *.
  set (new := app_Run (prog :: name :: rest)) in *.
  unfold godotenv_Load, os_ReadFile, bind, call, ret.
  destruct (ext_ReadFile ".env" (world s)) as [w [content|e]]; simpl;
    [|reflexivity].
  destruct (ext_ParseDotenv content) as [envMap|e]; simpl; [|reflexivity].
  rewrite (Hrun envMap w). reflexivity.
Qed.

End Revisions.

(** ** The further properties at work *)

Module Checks.

Import Sim Worlds.

(** A directory that holds a text file and a directory only. *)
Lemma runMigrations_nothing_to_do_witness :
  runMigrations db (start no_migrations) =
    (start no_migrations, [EvReadDir migrationDir], Ret None).
Proof.
  refine (runMigrations_nothing_to_do db (start no_migrations) no_migrations
            (Ok [notes_txt; old_sql_dir]) _ _).
  - reflexivity.
  - repeat constructor.
Defined.

(** [001_init.sql] is listed and cannot be read. *)
Lemma runMigrations_halts_on_unreadable_file_witness :
  runMigrations db (start vanished) =
    (start vanished,
     EvReadDir migrationDir :: [] ++
       [ EvQueryRow (sqlExists "001_init.sql");
         EvReadFile (migrationDir +:+ "001_init.sql") ],
     Ret (Some (ErrMsg
       "open internal/logme/migrations/001_init.sql: no such file or directory"))).
Proof.
  refine (runMigrations_halts_on_unreadable_file db (start vanished)
            (start vanished) vanished vanished vanished (dir fresh) []
            [add_index_sql; notes_txt; old_sql_dir] init_sql []
            (Err ErrNoRows) _ _ _ _ _ _ _ _).
  - reflexivity.
  - exact Witness.fresh_sorted.
  - reflexivity.
  - reflexivity.
  - reflexivity.
  - reflexivity.
  - vm_compute. reflexivity.
Defined.

(** The ledger takes no insert: [001_init.sql] is executed and the run ends
    with the error of the insert. *)
Lemma runMigrations_halts_on_failed_insert_witness :
  let s := mkState env0 Faulty.read_only in
  runMigrations db s =
    (s,
     EvReadDir migrationDir :: [] ++
       [ EvQueryRow (sqlExists "001_init.sql");
         EvReadFile (migrationDir +:+ "001_init.sql");
         EvExec "CREATE TABLE logs (ts DateTime)";
         EvAsyncInsert (sqlInsert "001_init.sql" 1700000000) false ],
     Ret (Some Faulty.quota)).
Proof.
  intros s.
  refine (runMigrations_halts_on_failed_insert db s s Faulty.read_only
            Faulty.read_only Faulty.read_only Faulty.read_only
            Faulty.read_only Faulty.read_only (dir fresh) []
            [add_index_sql; notes_txt; old_sql_dir] init_sql []
            (Err ErrNoRows) "CREATE TABLE logs (ts DateTime)" 1700000000
            Faulty.quota _ _ _ _ _ _ _ _ _ _).
  - reflexivity.
  - exact Witness.fresh_sorted.
  - reflexivity.
  - reflexivity.
  - reflexivity.
  - reflexivity.
  - vm_compute. reflexivity.
  - vm_compute. reflexivity.
  - reflexivity.
  - reflexivity.
Defined.

(** The insert for [001_init.sql] in the run of the fresh checkout. *)
Lemma runMigrations_insert_follows_exec_witness :
  false = false /\
  exists w0 raw file content now before,
    ext_readdir migrationDir (world (start fresh)) = (w0, Ok raw) /\
    file ∈ raw /\ candidate file = true /\
    sqlInsert "001_init.sql" 1700000000 = sqlInsert (Name file) now /\
    [ EvReadDir migrationDir;
      EvQueryRow (sqlExists "001_init.sql");
      EvReadFile (migrationDir +:+ "001_init.sql");
      EvExec "CREATE TABLE logs (ts DateTime)" ] =
    before ++ [ EvQueryRow (sqlExists (Name file));
                EvReadFile (migrationDir +:+ Name file);
                EvExec content ].
Proof.
  refine (runMigrations_insert_follows_exec db (start fresh)
            (runMigrations db (start fresh)).1.1
            (runMigrations db (start fresh)).1.2
            (runMigrations db (start fresh)).2
            [ EvReadDir migrationDir;
              EvQueryRow (sqlExists "001_init.sql");
              EvReadFile (migrationDir +:+ "001_init.sql");
              EvExec "CREATE TABLE logs (ts DateTime)" ]
            (drop 5 (runMigrations db (start fresh)).1.2)
            (sqlInsert "001_init.sql" 1700000000) false _ _).
  - vm_compute. reflexivity.
  - vm_compute. reflexivity.
Defined.

(** The counts of a run that goes through and of one that ends with a
    refused insert. *)
Lemma runMigrations_counts_witness :
  let t := (runMigrations db (mkState env0 Faulty.read_only)).1.2 in
  let o := (runMigrations db (mkState env0 Faulty.read_only)).2 in
  (count isInsert t <= count isExec t <= count isInsert t + 1)%nat /\
  (count isNotice t <= count isInsert t <= count isNotice t + 1)%nat /\
  (count isExec t <= count isRead t <= count isExec t + 1)%nat /\
  (count isRead t <= count isLookup t)%nat /\
  (o = Ret None ->
   count isExec t = count isInsert t /\ count isInsert t = count isNotice t /\
   count isRead t = count isExec t).
Proof.
  intros t o.
  refine (runMigrations_counts db (mkState env0 Faulty.read_only)
            (runMigrations db (mkState env0 Faulty.read_only)).1.1 t o _).
  vm_compute. reflexivity.
Defined.

(** After [migrate-test] the environment is what it was. *)
Lemma commands_preserve_environ_witness :
  environ (app_Run ["logme-cli"; "migrate-test"] (start fresh)).1.1 = env0.
Proof.
  refine (commands_preserve_environ ["logme-cli"; "migrate-test"] (start fresh)
            (app_Run ["logme-cli"; "migrate-test"] (start fresh)).1.1
            (app_Run ["logme-cli"; "migrate-test"] (start fresh)).1.2
            (app_Run ["logme-cli"; "migrate-test"] (start fresh)).2 _).
  vm_compute. reflexivity.
Defined.

(** The connection breaks at the probe: [migrate] panics with the message
    of the error. *)
Lemma migrate_outcomes_witness :
  exists db' s0 t0 w e,
    getDbConn false (start (with_broken reset fresh))
      = (s0, t0, Ret (Some db', None)) /\
    ext_QueryRowString db' sqlShowTables (world s0) = (w, Err e) /\
    is_ErrNoRows e = false /\
    "read: connection reset by peer" = Error e /\
    [EvOpen (conn_options db); EvQueryRow sqlShowTables]
      = t0 ++ [EvQueryRow sqlShowTables].
Proof.
  refine (migrate_outcomes false (start (with_broken reset fresh))
            (start (with_broken reset fresh))
            [EvOpen (conn_options db); EvQueryRow sqlShowTables]
            (Panicked "read: connection reset by peer") _).
  vm_compute. reflexivity.
Defined.

(** The server is down: [migrate] returns the error of [clickhouse.Open]. *)
Lemma migrate_without_connection_witness :
  let s := mkState env0 Faulty.down in
  migrate false s = (s, [EvOpen (conn_options db)], Ret (Some Faulty.refused)) /\
  count isStoreOrFile [EvOpen (conn_options db)] = 0%nat /\
  (count isOpen [EvOpen (conn_options db)] <= 1)%nat.
Proof.
  intros s.
  refine (migrate_without_connection false s s [EvOpen (conn_options db)] None
            Faulty.refused _).
  vm_compute. reflexivity.
Defined.

(** The run of the fresh checkout opens one connection and probes first. *)
Lemma migrate_opens_one_connection_witness :
  let t := (migrate false (start fresh)).1.2 in
  t = [] \/
  exists opts rest,
    t = EvOpen opts :: rest /\
    Forall (fun ev => isStoreOrFile ev = true \/ isNotice ev = true) rest /\
    (rest = [] \/ exists rest', rest = EvQueryRow sqlShowTables :: rest').
Proof.
  intros t.
  refine (migrate_opens_one_connection false (start fresh)
            (migrate false (start fresh)).1.1 t
            (migrate false (start fresh)).2 _).
  vm_compute. reflexivity.
Defined.

(** The options of the connection of the test database. *)
Lemma getDbConn_options_witness :
  let env : gmap string string :=
    {[ "DB_LOCAL_ADDR" := "127.0.0.1:9000"; "DB_USER" := "default" ]} in
  let o := mkOptions ["127.0.0.1:9000"] (mkAuth "logme_test" "default" "")
             CompressionLZ4 [("max_execution_time", 60)] in
  [EvOpen o] = [EvOpen (conn_options (mkConn o))] /\
  exists addr,
    resolveAddr env = Some addr /\
    conn_options (mkConn o) =
      mkOptions [addr]
        (mkAuth (resolveDatabase true env) (Getenv env "DB_USER")
                (Getenv env "DB_PASS"))
        CompressionLZ4 [("max_execution_time", 60)].
Proof.
  intros env o.
  refine (getDbConn_options true (mkState env fresh) (mkState env fresh)
            [EvOpen o] (mkConn o) _).
  vm_compute. reflexivity.
Defined.

(** The directory of the fresh checkout, read backwards. *)
Lemma runMigrations_listing_order_irrelevant_witness :
  runMigrations db (start fresh) =
    match migrateFiles db (sort_by_name (reverse (dir fresh)))
            (mkState (environ (start fresh)) fresh) with
    | (s', t, o) => (s', EvReadDir migrationDir :: t, o)
    end.
Proof.
  refine (runMigrations_listing_order_irrelevant db (start fresh) fresh
            (dir fresh) (reverse (dir fresh)) _ _ _).
  - reflexivity.
  - symmetry. apply reverse_Permutation.
  - exact Witness.fresh_names_NoDup.
Defined.

Lemma statements_name_their_file_witness :
  sqlExists "001_init.sql" ≠ sqlExists "002_add_index.sql" /\
  migrationDir +:+ "001_init.sql" ≠ migrationDir +:+ "002_add_index.sql" /\
  forall t u, sqlInsert "001_init.sql" t ≠ sqlInsert "002_add_index.sql" u.
Proof.
  refine (statements_name_their_file "001_init.sql" "002_add_index.sql" _).
  discriminate.
Defined.

(** The table of commands backwards: [t] still chooses [test]. *)
Lemma dispatch_order_irrelevant_witness :
  List.find (fun c => HasName c "t") (reverse (commands (E := Sim.t))) =
  List.find (fun c => HasName c "t") (commands (E := Sim.t)).
Proof.
  refine (dispatch_order_irrelevant (reverse commands) "t" _).
  apply reverse_Permutation.
Defined.

(** Neither the process nor [.env] names an address. *)
Lemma main_migrate_without_address_witness :
  main ["logme-cli"; "m"] (mkState ∅ no_address) =
    (mkState (∅ ∪ {[ "DB_NAME" := "events" ]}) no_address,
     [ EvReadFile ".env";
       EvStderr
         "environment variable DB_ADDR or DB_LOCAL_ADDR required for migrations" ],
     Exited 1).
Proof.
  refine (main_migrate_without_address "logme-cli" "m" [] (mkState ∅ no_address)
            no_address "DB_NAME=events" {[ "DB_NAME" := "events" ]} _ _ _ _).
  - right. left.
  - reflexivity.
  - vm_compute. reflexivity.
  - vm_compute. reflexivity.
Defined.

(** [mt] with [DB_ADDR] in the environment, in both revisions. *)
Lemma main_revisions_witness :
  V1.main ["logme-cli"; "mt"] (start fresh) =
  main ["logme-cli"; "mt"] (start fresh).
Proof.
  refine (main_revisions "logme-cli" "mt" [] (start fresh) _ _).
  - vm_compute. discriminate.
  - right. reflexivity.
Defined.

End Checks.
